(** * ec2-manager: the CloudWatch event listener

    A shallow embedding of [lib/cloud-watch-event-listener.js]: the message
    handler of [CloudWatchEventListener], which reconciles one EC2 instance
    state-change notification against the instances table, and the helpers
    it uses ([missingTags], the key-name split, the constructor's
    [provisionerId]).

    JavaScript values are modelled by the types the handler relies on:
    strings as [string], a [Date] by its time value in milliseconds (or the
    invalid date), numbers handed to the monitor as an integer or [NaN],
    [undefined]/[null] by [option] or by a dedicated constructor where the
    code tells them apart.  Every [await]ed collaborator call is a step of a
    state-and-exception monad; which steps throw is chosen by the
    environment, so every failure path of the handler can be exercised. *)

From Stdlib Require Import ZArith String Ascii List Bool Lia.
From stdpp Require Import base option gmap strings list fin_maps.

Import ListNotations.
Local Open Scope string_scope.
Local Open Scope Z_scope.

(** ** JavaScript values used by the handler *)

Module Js.

(** A [Date] object: its time value, or the invalid date (time value NaN). *)
Inductive Date : Type :=
| Valid (ms : Z)
| Invalid.

(** A JavaScript number as the monitor receives it. *)
Inductive Number : Type :=
| Num (z : Z)
| NaN.

(** A thrown value: an [Error] with its [name] and optional [code]. *)
Record Error : Type := mkError {
  err_name : string;
  err_code : option string;
}.

(** A database column holding a timestamp: absent, SQL NULL or a date. *)
Inductive DateField : Type :=
| FUndefined
| FNull
| FDate (d : Date).

Definition AssertionError : Error := mkError "AssertionError" (Some "ERR_ASSERTION").
Definition TypeError : Error := mkError "TypeError" None.

(** [a < b] on two dates: both are converted to numbers, and any
    comparison with NaN is false. *)
Definition date_lt (a b : Date) : bool :=
  match a, b with
  | Valid x, Valid y => x <? y
  | _, _ => false
  end.

(** [Number(v)] for a timestamp column. *)
Definition to_number_field (f : DateField) : Number :=
  match f with
  | FUndefined => NaN
  | FNull => Num 0
  | FDate (Valid x) => Num x
  | FDate Invalid => NaN
  end.

Definition to_number_date (d : Date) : Number :=
  match d with
  | Valid x => Num x
  | Invalid => NaN
  end.

(** The double nearest to an integer, ties going to the even significand:
    a double holds 53 significant bits, so integers up to [2 ^ 53] in
    magnitude are kept and larger ones are rounded to a multiple of the
    power of two that leaves 53 bits.  (No infinity: the numbers here are
    differences of time values, which are at most [8.64e15] in
    magnitude.) *)
Definition round_double (z : Z) : Z :=
  if Z.abs z <=? 2 ^ 53 then z
  else
    let unit := 2 ^ (Z.log2 (Z.abs z) - 52) in
    let q := Z.abs z / unit in
    let rem := Z.abs z mod unit in
    let q' := if (unit <? 2 * rem) || ((2 * rem =? unit) && Z.odd q) then q + 1 else q in
    Z.sgn z * (q' * unit).

(** [a - b] on numbers: the exact difference rounded to a double. *)
Definition sub (a b : Number) : Number :=
  match a, b with
  | Num x, Num y => Num (round_double (x - y))
  | _, _ => NaN
  end.

(** Truthiness of a timestamp column: objects are truthy, [null] and
    [undefined] are not. *)
Definition truthy_field (f : DateField) : bool :=
  match f with
  | FDate _ => true
  | _ => false
  end.

(** Truthiness of a possibly undefined string: the empty string is falsy. *)
Definition truthy_string (s : option string) : bool :=
  match s with
  | Some EmptyString => false
  | Some _ => true
  | None => false
  end.

(** [s.split(sep)] for a one-character separator: the pieces between the
    separators, [[""]] for the empty string. *)
Fixpoint split (sep : ascii) (s : string) : list string :=
  match s with
  | EmptyString => [EmptyString]
  | String c rest =>
      if Ascii.eqb c sep then EmptyString :: split sep rest
      else match split sep rest with
           | piece :: pieces => String c piece :: pieces
           | [] => [String c EmptyString]
           end
  end.

(** Truthiness of a possibly undefined object: objects are truthy. *)
Definition truthy_object {A} (o : option A) : bool :=
  match o with
  | Some _ => true
  | None => false
  end.

(** [s[s.length - 1]]: [undefined] for the empty string. *)
Definition last_char (s : string) : option ascii :=
  String.get (String.length s - 1) s.

(** [s.slice(0, s.length - 1)]. *)
Definition drop_last (s : string) : string :=
  String.substring 0 (String.length s - 1) s.

End Js.

Import Js.

(** ** Data of the handler *)

(** The decoded message body: [{region, time, detail: {'instance-id', state}}],
    with [time] already turned into a [Date]. *)
Record Detail : Type := mkDetail {
  instance_id : string;
  d_state : string;
}.

Record Body : Type := mkBody {
  b_region : string;
  b_time : Date;
  b_detail : Detail;
}.

(** A row of the instances table as [listInstances] hands it to the handler. *)
Record Row : Type := mkRow {
  r_id : string;
  r_region : string;
  r_workertype : string;
  r_az : string;
  r_instancetype : string;
  r_imageid : string;
  r_srid : option string;
  r_launched : Date;
  r_state : string;
  r_lastevent : DateField;
}.

(** One tag of an EC2 instance description. *)
Record Tag : Type := mkTag {
  Key : string;
  Value : string;
}.

(** An instance as [describeInstances] describes it. *)
Record Instance : Type := mkInstance {
  KeyName : option string;
  InstanceType : string;
  SpotInstanceRequestId : option string;
  AvailabilityZone : string;
  ImageId : string;
  LaunchTime : Date;
  Tags : option (list Tag);
}.

Record Reservation : Type := mkReservation {
  Instances : list Instance;
}.

Record ApiResponse : Type := mkApiResponse {
  Reservations : list Reservation;
}.

(** The [opts] object given to [upsertInstance]. *)
Record Opts : Type := mkOpts {
  o_workerType : option string;
  o_region : string;
  o_az : string;
  o_instanceType : string;
  o_imageId : string;
  o_id : string;
  o_state : string;
  o_launched : Date;
  o_srid : option string;
  o_lastevent : Date;
}.

(** [missingTags(obj)]: no tag of the instance has the key [Owner]. *)
Definition missingTags (obj : Instance) : bool :=
  let hasTag :=
    match Tags obj with
    | Some tags =>
        fold_left (fun hasTag tag => if String.eqb (Key tag) "Owner" then true else hasTag)
                  tags false
    | None => false
    end in
  negb hasTag.

(** [let [provisionerId, workerType] = keyName.split(':')]: the first two
    pieces, each [undefined] when the array is too short. *)
Definition split_key_name (keyName : string) : option string * option string :=
  let pieces := split ":" keyName in
  (nth_error pieces 0, nth_error pieces 1).

(** ** The collaborators: state store, EC2 API, tagger, monitor, log *)

(** The columns of a row other than its key [(region, id)]. *)
Record RowData : Type := mkRowData {
  workertype : string;
  az : string;
  instancetype : string;
  imageid : string;
  srid : option string;
  launched : Date;
  state : string;
  lastevent : DateField;
}.

Definition row_of (region id : string) (d : RowData) : Row :=
  mkRow id region (workertype d) (az d) (instancetype d) (imageid d)
        (srid d) (launched d) (state d) (lastevent d).

(** A write issued inside a transaction, applied when it commits. *)
Inductive Write : Type :=
| WUpdate (region id state : string) (lastevent : Date)
| WRemove (region id : string).

(** The awaited calls that can throw. *)
Inductive Step : Type :=
| SLogCloudWatchEvent
| SBeginTransaction
| SListInstances
| SRollbackTransaction
| SCommitTransaction
| SUpdateInstanceState
| SRemoveInstance
| SUpsertInstance
| SDescribeInstances
| STagResources.

Inductive Level : Type := LError | LInfo | LDebug.

(** Every call the handler makes on a collaborator, in the order made. *)
Inductive Event : Type :=
| ELogCloudWatchEvent (region id state : string) (generated : Date)
| EBeginTransaction
| EListInstances (region id : string) (transaction : nat)
| ERollbackTransaction (transaction : nat)
| ECommitTransaction (transaction : nat)
| EUpdateInstanceState (region id state : string) (lastevent : Date) (transaction : nat)
| ERemoveInstance (region id : string) (transaction : option nat)
| EUpsertInstance (opts : Opts)
| EDescribeInstances (ids : list string)
| ETagResources (ids : list string) (workerType region : string)
| EMonitorCount (name : string) (n : Z)
| EMonitorMeasure (name : string) (v : Number)
| EMonitorReportError (err : Error)
| ELog (level : Level) (msg : string).

(** What the handler runs against: the instances table, the audit log of
    received events, the transactions still open with the writes staged in
    each, and the record of the calls made so far. *)
Record World : Type := mkWorld {
  rows : gmap (string * string) RowData;
  cloudwatch_log : list (string * string * string * Date);
  next_txn : nat;
  open_txns : list (nat * list Write);
  trace : list Event;
}.

(** The part of the surroundings the handler does not change: which awaited
    calls throw (and what), and what the EC2 API answers for an instance id. *)
Record Env : Type := mkEnv {
  faults : Step -> option Error;
  ec2_describeInstances : string -> ApiResponse;
}.

(** The outcome of an async function: it returns or it throws. *)
Inductive Result (A : Type) : Type :=
| Ok (a : A)
| Threw (err : Error).
Arguments Ok {A} a.
Arguments Threw {A} err.

Definition M (A : Type) : Type := Env -> World -> Result A * World.

Definition ret {A} (a : A) : M A := fun _ w => (Ok a, w).

Definition throw {A} (err : Error) : M A := fun _ w => (Threw err, w).

Definition bind {A B} (m : M A) (k : A -> M B) : M B :=
  fun env w =>
    match m env w with
    | (Ok a, w') => k a env w'
    | (Threw err, w') => (Threw err, w')
    end.

(** [try { m } catch (err) { h err }] *)
Definition try_catch {A} (m : M A) (h : Error -> M A) : M A :=
  fun env w =>
    match m env w with
    | (Ok a, w') => (Ok a, w')
    | (Threw err, w') => h err env w'
    end.

Notation "'let!' x ':=' m 'in' k" := (bind m (fun x => k))
  (at level 10, x name, m at level 100, k at level 200).
Notation "'do!' m 'in' k" := (bind m (fun _ => k))
  (at level 10, m at level 100, k at level 200).

Definition assert (b : bool) : M unit :=
  if b then ret tt else throw AssertionError.

Definition emit (ev : Event) (w : World) : World :=
  mkWorld (rows w) (cloudwatch_log w) (next_txn w) (open_txns w) (trace w ++ [ev]).

(** An awaited call: it is recorded, then it throws if the environment says
    so (leaving the store as it was) and takes effect otherwise. *)
Definition call {A} (s : Step) (ev : World -> Event) (effect : World -> A * World) : M A :=
  fun env w =>
    let w1 := emit (ev w) w in
    match faults env s with
    | Some err => (Threw err, w1)
    | None => let (a, w2) := effect w1 in (Ok a, w2)
    end.

(** A call on the monitor or the log: recorded, never throws. *)
Definition note (ev : Event) : M unit :=
  fun _ w => (Ok tt, emit ev w).

Definition monitor_count (name : string) (n : Z) : M unit := note (EMonitorCount name n).
Definition monitor_measure (name : string) (v : Number) : M unit := note (EMonitorMeasure name v).
Definition monitor_reportError (err : Error) : M unit := note (EMonitorReportError err).
Definition log_error (msg : string) : M unit := note (ELog LError msg).
Definition log_info (msg : string) : M unit := note (ELog LInfo msg).
Definition log_debug (msg : string) : M unit := note (ELog LDebug msg).

Module State.

(** Modelled from the spec: the effect of a write on the instances table;
    [lib/state.js] is not among the sources.  An update changes [state] and
    [lastevent] of the row with that key and nothing else; a removal
    deletes the row, and does nothing when there is none. *)
Definition apply_write (wr : Write) (t : gmap (string * string) RowData)
  : gmap (string * string) RowData :=
  match wr with
  | WUpdate region id st le =>
      alter (fun d => mkRowData (workertype d) (az d) (instancetype d) (imageid d)
                                (srid d) (launched d) st (FDate le))
            (region, id) t
  | WRemove region id => delete (region, id) t
  end.

(** Modelled from the spec: the writes staged so far in an open
    transaction ([None] when the transaction is not open). *)
Fixpoint staged (transaction : nat) (txns : list (nat * list Write)) : option (list Write) :=
  match txns with
  | [] => None
  | (t, ws) :: rest => if Nat.eqb t transaction then Some ws else staged transaction rest
  end.

(** Modelled from the spec: a write issued with a transaction is kept with
    it until the transaction ends. *)
Fixpoint stage (transaction : nat) (wr : Write) (txns : list (nat * list Write))
  : list (nat * list Write) :=
  match txns with
  | [] => []
  | (t, ws) :: rest =>
      if Nat.eqb t transaction then (t, (ws ++ [wr])%list) :: rest
      else (t, ws) :: stage transaction wr rest
  end.

(** Modelled from the spec: ending a transaction, by commit or rollback,
    removes it from the open ones. *)
Fixpoint close (transaction : nat) (txns : list (nat * list Write))
  : list (nat * list Write) :=
  match txns with
  | [] => []
  | (t, ws) :: rest =>
      if Nat.eqb t transaction then rest else (t, ws) :: close transaction rest
  end.

(** Modelled from the spec: the row [upsertInstance] stores for the record
    it is given. *)
Definition row_of_opts (o : Opts) : RowData :=
  mkRowData (default "" (o_workerType o)) (o_az o) (o_instanceType o) (o_imageId o)
            (o_srid o) (o_launched o) (o_state o) (FDate (o_lastevent o)).

(** Modelled from the spec: [lib/state.js] is not among the sources.
    [logEvent(region, instanceId, state, generatedAt)] appends one entry
    to the raw event log. *)
Definition logCloudWatchEvent (region id st : string) (generated : Date) : M unit :=
  call SLogCloudWatchEvent (fun _ => ELogCloudWatchEvent region id st generated)
    (fun w => (tt, mkWorld (rows w) (cloudwatch_log w ++ [(region, id, st, generated)])
                           (next_txn w) (open_txns w) (trace w))).

(** Modelled from the spec: [beginTransaction() -> txn] opens a new
    transaction with nothing staged and returns its handle. *)
Definition beginTransaction : M nat :=
  call SBeginTransaction (fun _ => EBeginTransaction)
    (fun w => (next_txn w,
               mkWorld (rows w) (cloudwatch_log w) (S (next_txn w))
                       ((next_txn w, []) :: open_txns w) (trace w))).

(** Modelled from the spec: [findInstance(region, instanceId, txn)] gives
    zero or one record, the one whose key is [(region, instanceId)]. *)
Definition listInstances (region id : string) (transaction : nat) : M (list Row) :=
  call SListInstances (fun _ => EListInstances region id transaction)
    (fun w => (match rows w !! (region, id) with
               | Some d => [row_of region id d]
               | None => []
               end, w)).

(** Modelled from the spec: [rollback(txn)] closes the transaction and
    drops what was staged in it. *)
Definition rollbackTransaction (transaction : nat) : M unit :=
  call SRollbackTransaction (fun _ => ERollbackTransaction transaction)
    (fun w => (tt, mkWorld (rows w) (cloudwatch_log w) (next_txn w)
                           (close transaction (open_txns w)) (trace w))).

(** Modelled from the spec: [commit(txn)] applies the staged writes in
    order and closes the transaction; on a transaction that is not open
    it changes nothing. *)
Definition commitTransaction (transaction : nat) : M unit :=
  call SCommitTransaction (fun _ => ECommitTransaction transaction)
    (fun w => (tt, mkWorld
                     (fold_left (fun t wr => apply_write wr t)
                                (default [] (staged transaction (open_txns w))) (rows w))
                     (cloudwatch_log w) (next_txn w)
                     (close transaction (open_txns w)) (trace w))).

(** Modelled from the spec:
    [updateInstanceState(region, instanceId, state, lastEventAt, txn)]
    stages the update of [state] and [lastevent] of that row. *)
Definition updateInstanceState (region id st : string) (le : Date) (transaction : nat)
  : M unit :=
  call SUpdateInstanceState (fun _ => EUpdateInstanceState region id st le transaction)
    (fun w => (tt, mkWorld (rows w) (cloudwatch_log w) (next_txn w)
                           (stage transaction (WUpdate region id st le) (open_txns w))
                           (trace w))).

(** Modelled from the spec: [removeInstance(region, instanceId, txn?)]
    stages the removal in the transaction when one is given, and removes
    the row at once otherwise; removing an absent row changes nothing. *)
Definition removeInstance (region id : string) (transaction : option nat) : M unit :=
  call SRemoveInstance (fun _ => ERemoveInstance region id transaction)
    (fun w => (tt, match transaction with
                   | Some t => mkWorld (rows w) (cloudwatch_log w) (next_txn w)
                                       (stage t (WRemove region id) (open_txns w)) (trace w)
                   | None => mkWorld (delete (region, id) (rows w)) (cloudwatch_log w)
                                     (next_txn w) (open_txns w) (trace w)
                   end)).

(** Modelled from the spec: [upsertInstance(record)] inserts the record,
    replacing the row with the same key if there is one. *)
Definition upsertInstance (opts : Opts) : M unit :=
  call SUpsertInstance (fun _ => EUpsertInstance opts)
    (fun w => (tt, mkWorld (<[(o_region opts, o_id opts) := row_of_opts opts]> (rows w))
                           (cloudwatch_log w) (next_txn w) (open_txns w) (trace w))).

End State.

(** [runaws(ec2, 'describeInstances', {InstanceIds: [id]})] *)
Definition runaws_describeInstances (ids : list string) : M ApiResponse :=
  fun env =>
    call SDescribeInstances (fun _ => EDescribeInstances ids)
      (fun w => (ec2_describeInstances env (hd "" ids), w)) env.

(** [tagger.tagResources({ids, workerType, region})] *)
Definition tagger_tagResources (ids : list string) (workerType region : string) : M unit :=
  call STagResources (fun _ => ETagResources ids workerType region) (fun w => (tt, w)).

(** ** JavaScript values given to the constructor *)

Module JsValue.

#[local] Unset Elimination Schemes.

(** A JavaScript value as far as the constructor inspects its arguments:
    an object by the properties it answers to, a function by what a call
    with one string argument gives and by its properties. *)
Inductive Value : Type :=
| VUndefined
| VNull
| VBoolean (b : bool)
| VNumber (n : Number)
| VString (s : string)
| VFunction (call : string -> Result Value) (properties : list (string * Value))
| VObject (properties : list (string * Value)).

#[local] Set Elimination Schemes.

(** [typeof v] *)
Definition typeof (v : Value) : string :=
  match v with
  | VUndefined => "undefined"
  | VNull => "object"
  | VBoolean _ => "boolean"
  | VNumber _ => "number"
  | VString _ => "string"
  | VFunction _ _ => "function"
  | VObject _ => "object"
  end.

(** Truthiness: [undefined], [null], [false], [0], [NaN] and the empty
    string are falsy. *)
Definition truthy (v : Value) : bool :=
  match v with
  | VUndefined | VNull => false
  | VBoolean b => b
  | VNumber (Num z) => negb (z =? 0)
  | VNumber NaN => false
  | VString s => negb (String.eqb s "")
  | VFunction _ _ | VObject _ => true
  end.

(** The value of a property among those listed, [undefined] when absent. *)
Fixpoint property (name : string) (properties : list (string * Value)) : Value :=
  match properties with
  | [] => VUndefined
  | (n, v) :: rest => if String.eqb n name then v else property name rest
  end.

(** [v.name] for the names the constructor reads ([config], [region],
    [prefix]): a type error on [undefined] and [null]; no primitive value
    has a property of these names. *)
Definition get (v : Value) (name : string) : Result Value :=
  match v with
  | VUndefined | VNull => Threw TypeError
  | VBoolean _ | VNumber _ | VString _ => Ok VUndefined
  | VFunction _ properties | VObject properties => Ok (property name properties)
  end.

(** [v.name(arg)]: a type error when [v.name] is not a function. *)
Definition call_method (v : Value) (name arg : string) : Result Value :=
  match get v name with
  | Ok (VFunction call _) => call arg
  | Ok _ => Threw TypeError
  | Threw err => Threw err
  end.

(** [v === s] for a string [s]. *)
Definition is_string (v : Value) (s : string) : bool :=
  match v with
  | VString s' => String.eqb s' s
  | _ => false
  end.

(** [assert(b)] *)
Definition check (b : bool) : Result unit :=
  if b then Ok tt else Threw AssertionError.

(** Sequencing of steps that may throw. *)
Definition and_then {A B} (r : Result A) (k : A -> Result B) : Result B :=
  match r with
  | Ok a => k a
  | Threw err => Threw err
  end.

End JsValue.

Import JsValue.

Notation "'let?' x ':=' r 'in' k" := (and_then r (fun x => k))
  (at level 10, x name, r at level 100, k at level 200).
Notation "'do?' r 'in' k" := (and_then r (fun _ => k))
  (at level 10, r at level 100, k at level 200).

(** ** The listener *)

Module CloudWatchEventListener.

(** The properties of the object given to the constructor, [undefined]
    when absent: [{state, sqs, ec2, queueName, monitor, region, keyPrefix,
    runaws, tagger}]. *)
Record Args : Type := mkArgs {
  a_state : Value;
  a_sqs : Value;
  a_ec2 : Value;
  a_queueName : Value;
  a_monitor : Value;
  a_region : Value;
  a_keyPrefix : Value;
  a_runaws : Value;
  a_tagger : Value;
}.

Record Listener : Type := mkListener {
  region : string;
  queueName : string;
  provisionerId : string;
  keyPrefix : string;
}.

(** [client.config.region] *)
Definition config_region (client : Value) : Result Value :=
  let? config := get client "config" in
  get config "region".

(** [constructor({...})]: the assertions in the order of the source.  The
    key prefix must be a string ending in a colon and is kept without it
    as [provisionerId]; both clients must be configured for [region];
    [monitor.prefix('cloud-watch-events')] is called. *)
Definition constructor (a : Args) : Result Listener :=
  let queueName :=
    match a_queueName a with
    | VUndefined => VString "ec2-events"
    | given => given
    end in
  do? check (String.eqb (typeof (a_state a)) "object") in
  do? check (String.eqb (typeof (a_region a)) "string") in
  do? check (String.eqb (typeof queueName) "string") in
  do? check (String.eqb (typeof (a_keyPrefix a)) "string") in
  match a_region a, queueName, a_keyPrefix a with
  | VString region, VString queueName, VString keyPrefix =>
      do? check (bool_decide (last_char keyPrefix = Some ":"%char)) in
      let provisionerId := drop_last keyPrefix in
      do? check (truthy (a_sqs a)) in
      do? check (truthy (a_ec2 a)) in
      let? ec2_region := config_region (a_ec2 a) in
      do? check (is_string ec2_region region) in
      let? sqs_region := config_region (a_sqs a) in
      do? check (is_string sqs_region region) in
      let? monitor := call_method (a_monitor a) "prefix" "cloud-watch-events" in
      do? check (String.eqb (typeof (a_tagger a)) "object") in
      Ok (mkListener region queueName provisionerId keyPrefix)
  | _, _, _ => Threw AssertionError
  end.

(** [async __handler(msg)], on the parsed message body. *)
Definition __handler (this : Listener) (body : Body) : M unit :=
  let region := b_region body in
  let id := instance_id (b_detail body) in
  let state := d_state (b_detail body) in
  let generated := b_time body in
  do! try_catch (State.logCloudWatchEvent region id state generated)
        (fun err => monitor_reportError err) in
  let! transaction := State.beginTransaction in
  let! dbResponse :=
    try_catch
      (let! x := State.listInstances region id transaction in
       do! assert (Nat.eqb (length x) 0 || Nat.eqb (length x) 1) in
       ret (if Nat.eqb (length x) 1 then nth_error x 0 else None))
      (fun err =>
         do! State.rollbackTransaction transaction in
         do! log_error "Error looking up state from database" in
         ret None) in
  do! (if negb (truthy_object dbResponse)
       then State.commitTransaction transaction
       else ret tt) in
  match dbResponse with
  | Some dbResponse =>
      do! assert (String.eqb (r_id dbResponse) id) in
      do! assert (String.eqb (r_region dbResponse) region) in
      if truthy_field (r_lastevent dbResponse)
         && match r_lastevent dbResponse with
            | FDate lastevent => date_lt lastevent generated
            | _ => false
            end
      then
        try_catch
          (do! (if String.eqb state "pending" || String.eqb state "running"
                then
                  do! State.updateInstanceState region id state generated transaction in
                  log_info "CloudWatch Event resulting in insertion"
                else
                  do! State.removeInstance region id (Some transaction) in
                  log_debug "CloudWatch Event resulting in deletion") in
           State.commitTransaction transaction)
          (fun err =>
             do! State.rollbackTransaction transaction in
             do! log_error "trying to update or remove instance" in
             throw err)
      else
        do! State.commitTransaction transaction in
        do! monitor_count "global.cwe-out-of-order.count" 1 in
        do! monitor_count (region +:+ ".cwe-out-of-order.count") 1 in
        let delay := sub (to_number_field (r_lastevent dbResponse))
                         (to_number_date generated) in
        do! monitor_measure "global.cwe-out-of-order.delay" delay in
        do! monitor_measure (region +:+ ".cwe-out-of-order.delay") delay in
        log_info "CloudWatch Event delivered out of order"
  | None =>
      if String.eqb state "pending" || String.eqb state "running" then
        let! apiResponse :=
          try_catch (runaws_describeInstances [id])
            (fun err =>
               do! (if negb (bool_decide (err_code err = Some "InvalidInstanceID.NotFound"))
                    then monitor_reportError err
                    else
                      do! monitor_count "global.api-lag" 1 in
                      monitor_count (region +:+ ".api-lag") 1) in
               throw err) in
        do! assert (Nat.eqb (length (Reservations apiResponse)) 1) in
        match Reservations apiResponse with
        | [] => throw TypeError
        | reservation :: _ =>
            do! assert (Nat.eqb (length (Instances reservation)) 1) in
            match Instances reservation with
            | [] => throw TypeError
            | instance :: _ =>
                match KeyName instance with
                | None => throw TypeError
                | Some keyName =>
                    let '(provisionerId, workerType) := split_key_name keyName in
                    let instanceType := InstanceType instance in
                    let srid := if truthy_string (SpotInstanceRequestId instance)
                                then SpotInstanceRequestId instance else None in
                    let az := AvailabilityZone instance in
                    let imageId := ImageId instance in
                    let launched := LaunchTime instance in
                    do! (if truthy_string workerType && missingTags instance
                         then tagger_tagResources [id] (default "" workerType) region
                         else ret tt) in
                    let opts := mkOpts workerType region az instanceType imageId id
                                       state launched srid generated in
                    if truthy_string workerType
                       && bool_decide (provisionerId = Some (CloudWatchEventListener.provisionerId this))
                    then
                      do! State.upsertInstance opts in
                      log_info "CloudWatch Event resulting in insertion"
                    else
                      log_debug "Ignoring instance because it does not belong to this manager"
                end
            end
        end
      else
        do! State.removeInstance region id None in
        log_debug "CloudWatch Event resulting in deletion"
  end.

End CloudWatchEventListener.

Import CloudWatchEventListener.

(** ** Notions used to state the properties *)

(** The key of the row a notification is about. *)
Definition key (body : Body) : string * string :=
  (b_region body, instance_id (b_detail body)).

(** The calls made between two worlds of one run. *)
Definition new_events (w w' : World) : list Event :=
  drop (length (trace w)) (trace w').

(** The calls of the audit step: the write to the event log and, when it
    throws, the report of its error. *)
Definition audit_events (env : Env) (body : Body) : list Event :=
  ELogCloudWatchEvent (b_region body) (instance_id (b_detail body))
                      (d_state (b_detail body)) (b_time body)
  :: match faults env SLogCloudWatchEvent with
     | Some err => [EMonitorReportError err]
     | None => []
     end.

(** The lookup inside the transaction the handler has just opened. *)
Definition lookup_events (w : World) (body : Body) : list Event :=
  [EBeginTransaction;
   EListInstances (b_region body) (instance_id (b_detail body)) (next_txn w)].

(** A call that writes to the instances table. *)
Definition is_write (ev : Event) : bool :=
  match ev with
  | EUpdateInstanceState _ _ _ _ _ | ERemoveInstance _ _ _ | EUpsertInstance _ => true
  | _ => false
  end.

(** A call of [upsertInstance]. *)
Definition is_upsert (ev : Event) : bool :=
  match ev with
  | EUpsertInstance _ => true
  | _ => false
  end.

(** A call of [tagResources]. *)
Definition is_tagging (ev : Event) : bool :=
  match ev with
  | ETagResources _ _ _ => true
  | _ => false
  end.

(** A call that ends transaction [t]: its commit or its rollback. *)
Definition closes (t : nat) (ev : Event) : bool :=
  match ev with
  | ECommitTransaction t' | ERollbackTransaction t' => Nat.eqb t t'
  | _ => false
  end.

(** The calls that end transaction [t], in the order made. *)
Definition closing_calls (t : nat) (evs : list Event) : list Event :=
  List.filter (closes t) evs.

(** The state named by the notification keeps the instance in the table. *)
Definition live (body : Body) : bool :=
  String.eqb (d_state (b_detail body)) "pending"
  || String.eqb (d_state (b_detail body)) "running".

(** The row after [updateInstanceState]: only [state] and [lastevent] change. *)
Definition updated (d : RowData) (st : string) (generated : Date) : RowData :=
  mkRowData (workertype d) (az d) (instancetype d) (imageid d) (srid d) (launched d)
            st (FDate generated).

(** The split the specification words describe: at the first separator
    only, giving the text before it and, when there is a separator, all the
    text after it. *)
Fixpoint split_at_first (sep : ascii) (s : string) : string * option string :=
  match s with
  | EmptyString => (EmptyString, None)
  | String c rest =>
      if Ascii.eqb c sep then (EmptyString, Some rest)
      else let '(before, after) := split_at_first sep rest in (String c before, after)
  end.

(** Whether the separator occurs in the string. *)
Fixpoint contains (sep : ascii) (s : string) : bool :=
  match s with
  | EmptyString => false
  | String c rest => Ascii.eqb c sep || contains sep rest
  end.

#[global] Instance Step_eq_dec : EqDecision Step.
Proof. solve_decision. Defined.

(** ** Concrete surroundings for examples *)

Module Example.

Definition this : Listener := mkListener "us-west-2" "ec2-events" "prov" "prov:".

Definition no_faults : Step -> option Error := fun _ => None.

Definition fault_at (s : Step) (err : Error) : Step -> option Error :=
  fun s' => if bool_decide (s' = s) then Some err else None.

Definition owned : Instance :=
  mkInstance (Some "prov:worker:hash") "m3.large" (Some "sir-1") "us-west-2a" "ami-1"
             (Valid 7) None.

Definition describes (i : Instance) : string -> ApiResponse :=
  fun _ => mkApiResponse [mkReservation [i]].

Definition row : RowData :=
  mkRowData "worker" "us-west-2a" "m3.large" "ami-1" None (Valid 7) "pending"
            (FDate (Valid 100)).

Definition empty : World := mkWorld ∅ [] 0%nat [] [].

Definition tracked (d : RowData) : World :=
  mkWorld {[ ("us-west-2", "i-1") := d ]} [] 0%nat [] [].

Definition notification (st : string) (t : Z) : Body :=
  mkBody "us-west-2" (Valid t) (mkDetail "i-1" st).

Definition connection_lost : Error := mkError "Error" (Some "ECONNRESET").

Definition not_found : Error := mkError "Error" (Some "InvalidInstanceID.NotFound").

End Example.

(** ** The rest of the module: arrays and the queue wiring *)

Module JsArray.

(** [pieces.join(sep)] on an array of strings: the pieces with [sep]
    between them, the empty string for the empty array. *)
Fixpoint join (sep : string) (pieces : list string) : string :=
  match pieces with
  | [] => ""
  | piece :: rest =>
      match rest with
      | [] => piece
      | _ :: _ => piece +:+ sep +:+ join sep rest
      end
  end.

End JsArray.

Module Wiring.

(** The [handler] option [init] gives the queue listener: the message
    handler between a time keeper and the count of handled messages.
    [elapsed] is what the time keeper measures. *)
Definition handler (this : Listener) (elapsed : Number) (body : Body) : M unit :=
  do! __handler this body in
  do! monitor_measure "message-handler-time" elapsed in
  monitor_count "handled-messages" 1.

End Wiring.

(** ** More notions *)

(** A call of [describeInstances]. *)
Definition is_describe (ev : Event) : bool :=
  match ev with
  | EDescribeInstances _ => true
  | _ => false
  end.

(** A call that leaves the store's transaction aside: the EC2 API, the
    tagger, or the upsert. *)
Definition is_outside (ev : Event) : bool :=
  is_describe ev || is_tagging ev || is_upsert ev.

(** Scanning the calls in order: every call outside the transaction comes
    after a call that ends transaction [t]. *)
Fixpoint outside_after_end (t : nat) (ended : bool) (evs : list Event) : bool :=
  match evs with
  | [] => true
  | ev :: rest =>
      if closes t ev then outside_after_end t true rest
      else if is_outside ev then ended && outside_after_end t ended rest
      else outside_after_end t ended rest
  end.

(** The number of separators in a string. *)
Fixpoint count_sep (sep : ascii) (s : string) : nat :=
  match s with
  | EmptyString => 0
  | String c rest => (if Ascii.eqb c sep then 1 else 0) + count_sep sep rest
  end.

(** The entry the audit step appends to the event log. *)
Definition audit_entry (body : Body) : string * string * string * Date :=
  (b_region body, instance_id (b_detail body), d_state (b_detail body), b_time body).

(** Notifications handled one after the other, as the sequential queue
    listener delivers them; a handler that throws does not stop the next
    delivery. *)
Fixpoint handle_all (this : Listener) (env : Env) (bodies : list Body) (w : World) : World :=
  match bodies with
  | [] => w
  | body :: rest => handle_all this env rest (__handler this body env w).2
  end.

(** A notification for the instance [id] of [region]. *)
Definition notify (region id st : string) (generated : Date) : Body :=
  mkBody region generated (mkDetail id st).

(** ** Evaluating the handler *)

Arguments bind {A B} m k env w /.
Arguments try_catch {A} m h env w /.
Arguments ret {A} a env w /.
Arguments throw {A} err env w /.
Arguments call {A} s ev effect env w /.
Arguments note ev env w /.
Arguments assert b env w /.
Arguments emit ev w /.
Arguments State.logCloudWatchEvent region id st generated env w /.
Arguments State.beginTransaction env w /.
Arguments State.listInstances region id transaction env w /.
Arguments State.rollbackTransaction transaction env w /.
Arguments State.commitTransaction transaction env w /.
Arguments State.updateInstanceState region id st le transaction env w /.
Arguments State.removeInstance region id transaction env w /.
Arguments State.upsertInstance opts env w /.
Arguments runaws_describeInstances ids env w /.
Arguments tagger_tagResources ids workerType region env w /.
Arguments monitor_count name n env w /.
Arguments monitor_measure name v env w /.
Arguments monitor_reportError err env w /.
Arguments log_error msg env w /.
Arguments log_info msg env w /.
Arguments log_debug msg env w /.
Arguments split_key_name keyName : simpl never.
Arguments missingTags obj : simpl never.
Arguments round_double z : simpl never.
Arguments typeof !v : simpl nomatch.
Arguments truthy !v : simpl nomatch.
Arguments is_string !v s : simpl nomatch.
Arguments config_region client : simpl never.
Arguments call_method v name arg : simpl never.

(** Rewrite with what is known about the environment and the table. *)
Ltac use_facts :=
  repeat match goal with
  | H : faults ?e ?s = _ |- context [faults ?e ?s] => rewrite H
  | H : lookup ?k ?m = _ |- context [lookup ?k ?m] => rewrite H
  | H : String.eqb ?a ?b = _ |- context [String.eqb ?a ?b] => rewrite H
  | H : Z.ltb ?a ?b = _ |- context [Z.ltb ?a ?b] => rewrite H
  | H : ec2_describeInstances ?e ?i = _ |- context [ec2_describeInstances ?e ?i] => rewrite H
  | H : KeyName ?i = _ |- context [KeyName ?i] => rewrite H
  | H : split_key_name ?k = _ |- context [split_key_name ?k] => rewrite H
  | H : missingTags ?i = _ |- context [missingTags ?i] => rewrite H
  | H : bool_decide ?P = _ |- context [bool_decide ?P] => rewrite H
  | H : lastevent ?d = _ |- context [lastevent ?d] => rewrite H
  | H : b_time ?b = _ |- context [b_time ?b] => rewrite H
  | |- context [Nat.eqb ?a ?a] => rewrite Nat.eqb_refl
  | |- context [String.eqb ?a ?a] => rewrite String.eqb_refl
  end.

(** Run the handler as far as the known facts decide its path. *)
Ltac run_handler :=
  unfold __handler, key, live in *; repeat (progress (cbn; use_facts)).

(** Split on whatever the path still depends on. *)
Ltac split_path :=
  match goal with
  | |- context [truthy_string ?x] => is_var x; destruct x as [[|? ?]|]
  | |- context [missingTags ?i] => destruct (missingTags i) eqn:?
  | |- context [match faults ?e ?s with _ => _ end] => destruct (faults e s) eqn:?
  | |- context [if String.eqb ?a ?b then _ else _] => destruct (String.eqb a b) eqn:?
  | |- context [String.eqb ?a ?b || _] => destruct (String.eqb a b) eqn:?
  | |- context [if Z.ltb ?a ?b then _ else _] => destruct (Z.ltb a b) eqn:?
  | |- context [if bool_decide ?P then _ else _] => destruct (bool_decide P) eqn:?
  | |- context [negb (bool_decide ?P)] => destruct (bool_decide P) eqn:?
  | |- context [_ && bool_decide ?P] => destruct (bool_decide P) eqn:?
  end.

Ltac run_all_paths := run_handler; repeat (split_path; run_handler).

(** Bring the trace of a finished run to the form [trace w ++ calls]. *)
Ltac read_trace :=
  unfold audit_events, lookup_events; use_facts;
  unfold new_events; cbn [trace]; rewrite <- ?app_assoc; apply drop_app_length.

(** Replace [new_events] of a finished run by the list of its calls. *)
Ltac list_new_events :=
  unfold new_events; cbn [trace]; rewrite <- ?app_assoc; rewrite drop_app_length.

(** Split on the shape of what the EC2 API answered. *)
Ltac split_description :=
  match goal with
  | |- context [ec2_describeInstances ?e ?i] =>
      destruct (ec2_describeInstances e i) as [?] eqn:?
  | |- context [length ?l] => is_var l; destruct l as [|? ?]
  | |- context [Instances ?r] => is_var r; destruct r as [?]
  | |- context [KeyName ?i] => destruct (KeyName i) eqn:?
  | |- context [split_key_name ?k] => destruct (split_key_name k) as [? ?] eqn:?
  | |- context [lastevent ?d] => destruct (lastevent d) as [| |[?|]] eqn:?
  | |- context [match b_time ?b with _ => _ end] => destruct (b_time b) eqn:?
  end.

Ltac run_every_path :=
  run_handler; repeat (first [split_path | split_description]; run_handler).

(** Use the freshness of the transaction handle and the lookups of a table
    just written. *)
Ltac use_more_facts :=
  repeat match goal with
  | H : State.staged ?t ?l = _ |- context [State.staged ?t ?l] => rewrite H
  | |- context [lookup ?k (alter _ ?k _)] => rewrite lookup_alter_eq
  | |- context [lookup ?k (delete ?k _)] => rewrite lookup_delete_eq
  | |- context [lookup ?k (insert ?k _ _)] => rewrite lookup_insert_eq
  end.

(** Facts used when one run follows another. *)
Ltac use_seq_facts :=
  repeat match goal with
  | |- context [Z.ltb ?a ?a] => rewrite Z.ltb_irrefl
  | H : (?a || ?b) = _ |- context [?a || ?b] => rewrite H
  | H : Z.ltb ?a ?b = _ |- context [Z.ltb ?a ?b] => rewrite H
  end.

Ltac run_next :=
  unfold __handler, key, live in *;
  repeat (progress (cbn; use_facts; use_more_facts; use_seq_facts)).

Ltac run_next_paths :=
  run_next; repeat (first [split_path | split_description]; run_next).

(** Take the innermost run [__handler this body env w] of the goal, follow
    it on every path and put its outcome in place. *)
Ltac run_first this body env w :=
  let o := fresh "o" in
  let E := fresh "E" in
  let r := fresh "r" in
  let w' := fresh "w" in
  remember (__handler this body env w) as o eqn:E;
  destruct o as [r w']; cbn [fst snd];
  symmetry in E; revert E;
  run_next_paths;
  intros [= <- <-].

Ltac no_faults H :=
  pose proof (H SLogCloudWatchEvent); pose proof (H SBeginTransaction);
  pose proof (H SListInstances); pose proof (H SRollbackTransaction);
  pose proof (H SCommitTransaction); pose proof (H SUpdateInstanceState);
  pose proof (H SRemoveInstance); pose proof (H SUpsertInstance);
  pose proof (H SDescribeInstances); pose proof (H STagResources).

(** ** The key-name split *)

Lemma split_not_nil (sep : ascii) (s : string) : split sep s <> [].
Proof.
  destruct s as [|c rest]; cbn; [discriminate|].
  destruct (Ascii.eqb c sep); [discriminate|].
  destruct (split sep rest); discriminate.
Qed.

Lemma split_first_piece (sep : ascii) (s : string) :
  nth_error (split sep s) 0 = Some (split_at_first sep s).1.
Proof.
  induction s as [|c rest IH]; cbn; [reflexivity|].
  destruct (Ascii.eqb c sep); [reflexivity|].
  destruct (split_at_first sep rest) as [before after].
  destruct (split sep rest) as [|piece pieces]; cbn in *; congruence.
Qed.

Lemma split_second_piece (sep : ascii) (s : string) :
  nth_error (split sep s) 1 =
  (fun rest => (split_at_first sep rest).1) <$> (split_at_first sep s).2.
Proof.
  induction s as [|c rest IH]; cbn; [reflexivity|].
  destruct (Ascii.eqb c sep); cbn.
  - apply split_first_piece.
  - pose proof (split_not_nil sep rest) as Hne.
    destruct (split_at_first sep rest) as [before after].
    destruct (split sep rest) as [|piece pieces]; [congruence|].
    cbn in *. exact IH.
Qed.

Lemma split_at_first_no_separator (sep : ascii) (s : string) :
  (split_at_first sep s).2 = None <-> contains sep s = false.
Proof.
  induction s as [|c rest IH]; cbn; [tauto|].
  destruct (Ascii.eqb c sep); cbn; [split; discriminate|].
  destruct (split_at_first sep rest) as [before after]. exact IH.
Qed.

Lemma split_at_first_whole (sep : ascii) (s : string) :
  contains sep s = false -> (split_at_first sep s).1 = s.
Proof.
  induction s as [|c rest IH]; cbn; [reflexivity|].
  destruct (Ascii.eqb c sep); cbn; [discriminate|].
  intros H. destruct (split_at_first sep rest) as [before after].
  cbn in *. f_equal. auto.
Qed.

(** C5, as the code has it: [provisionerId] is the text before the first
    colon of the key name and [workerType] the text between the first and
    the second colon (all the text after the first colon when there is no
    second one); what follows a second colon is dropped.  A key name
    without a colon gives no [workerType], and [provisionerId] is then the
    whole key name. *)
Theorem key_name_split_pieces (keyName : string) :
  split_key_name keyName =
    (Some (split_at_first ":" keyName).1,
     (fun rest => (split_at_first ":" rest).1) <$> (split_at_first ":" keyName).2)
  /\ ((split_key_name keyName).2 = None <-> contains ":" keyName = false)
  /\ (forall rest, (split_at_first ":" keyName).2 = Some rest ->
        contains ":" rest = false -> (split_key_name keyName).2 = Some rest).
Proof.
  assert (E : split_key_name keyName =
    (Some (split_at_first ":" keyName).1,
     (fun rest => (split_at_first ":" rest).1) <$> (split_at_first ":" keyName).2)).
  { unfold split_key_name. cbv zeta.
    rewrite split_first_piece, split_second_piece. reflexivity. }
  split; [exact E|]. rewrite E. cbn [snd]. split.
  - rewrite <- split_at_first_no_separator.
    destruct (split_at_first ":" keyName).2; cbn; split; congruence.
  - intros rest Hrest Hno. rewrite Hrest. cbn.
    rewrite split_at_first_whole; auto.
Qed.

(** C5, as stated, fails: with two colons in the key name [workerType] is
    not all the text after the first colon. *)
Lemma key_name_split_not_at_first_only :
  (split_at_first ":" "prov:worker:hash").2 = Some "worker:hash"
  /\ (split_key_name "prov:worker:hash").2 = Some "worker"
  /\ (split_key_name "prov:worker:hash").2 <> (split_at_first ":" "prov:worker:hash").2.
Proof.
  repeat split; try reflexivity. cbv. discriminate.
Qed.

(** ** The configured provisioner *)

Lemma drop_last_colon (s : string) :
  last_char s = Some ":"%char -> drop_last s +:+ ":" = s.
Proof.
  unfold last_char, drop_last.
  induction s as [|c s IH]; [discriminate|].
  destruct s as [|c' s'].
  - cbn. intros [= ->]. reflexivity.
  - intros H.
    replace (String.length (String c (String c' s')) - 1)%nat
      with (S (String.length (String c' s') - 1)) in * by (cbn; lia).
    exact (f_equal (String c) (IH H)).
Qed.

(** ** The lookup fails *)

(** C1: when [listInstances] throws, the handler rolls the transaction
    back and logs, but it does not stop.  With a tracked row and a stale
    [terminated] notification it goes on to commit the transaction it has
    just rolled back and to remove the row outside any transaction; with a
    [pending] notification it goes on to the EC2 lookup, the tagging call
    and the upsert, replacing the newer row. *)
Theorem lookup_failure_falls_through :
  let env := mkEnv (Example.fault_at SListInstances Example.connection_lost)
                   (Example.describes Example.owned) in
  let w := Example.tracked Example.row in
  (let '(r, w') := __handler Example.this (Example.notification "terminated" 50) env w in
   r = Ok tt
   /\ trace w' =
        [ELogCloudWatchEvent "us-west-2" "i-1" "terminated" (Valid 50);
         EBeginTransaction; EListInstances "us-west-2" "i-1" 0;
         ERollbackTransaction 0;
         ELog LError "Error looking up state from database";
         ECommitTransaction 0;
         ERemoveInstance "us-west-2" "i-1" None;
         ELog LDebug "CloudWatch Event resulting in deletion"]
   /\ rows w !! ("us-west-2", "i-1") = Some Example.row
   /\ rows w' !! ("us-west-2", "i-1") = None)
  /\
  (let '(r, w') := __handler Example.this (Example.notification "pending" 50) env w in
   r = Ok tt
   /\ filter (fun ev => is_write ev || is_tagging ev || closes 0 ev = true) (trace w') =
        [ERollbackTransaction 0; ECommitTransaction 0;
         ETagResources ["i-1"] "worker" "us-west-2";
         EUpsertInstance (mkOpts (Some "worker") "us-west-2" "us-west-2a" "m3.large" "ami-1"
                                 "i-1" "pending" (Valid 7) (Some "sir-1") (Valid 50))]
   /\ lastevent <$> rows w !! ("us-west-2", "i-1") = Some (FDate (Valid 100))
   /\ lastevent <$> rows w' !! ("us-west-2", "i-1") = Some (FDate (Valid 50))).
Proof.
  vm_compute. repeat split; reflexivity.
Qed.

(** ** No row, a state other than pending or running *)

(** C9: when the lookup finds no row and the state is neither [pending]
    nor [running], the handler commits the empty transaction and calls
    [removeInstance] for the key outside any transaction, whatever the
    table holds; nothing else is called (no EC2 lookup, no upsert), the
    table is left as it was (the row is absent) and the handler returns. *)
Theorem terminal_without_row_removes (this : Listener) (env : Env) (w : World) (body : Body) :
  rows w !! key body = None ->
  live body = false ->
  faults env SBeginTransaction = None ->
  faults env SListInstances = None ->
  faults env SCommitTransaction = None ->
  faults env SRemoveInstance = None ->
  let '(r, w') := __handler this body env w in
  r = Ok tt
  /\ new_events w w' =
       (audit_events env body ++ lookup_events w body ++
        [ECommitTransaction (next_txn w);
         ERemoveInstance (b_region body) (instance_id (b_detail body)) None;
         ELog LDebug "CloudWatch Event resulting in deletion"])%list
  /\ rows w' = delete (key body) (rows w)
  /\ rows w' = rows w
  /\ open_txns w' = open_txns w.
Proof.
  intros Hrow Hlive Hb Hl Hc Hr.
  apply orb_false_elim in Hlive as [Hp Hrun].
  destruct (faults env SLogCloudWatchEvent) eqn:Ha; run_handler;
    (repeat split; [read_trace | apply delete_id; exact Hrow]).
Qed.

Lemma terminal_without_row_removes_witness :
  let env := mkEnv Example.no_faults (Example.describes Example.owned) in
  let '(r, w') := __handler Example.this (Example.notification "terminated" 50) env Example.empty in
  r = Ok tt
  /\ new_events Example.empty w' =
       [ELogCloudWatchEvent "us-west-2" "i-1" "terminated" (Valid 50);
        EBeginTransaction; EListInstances "us-west-2" "i-1" 0;
        ECommitTransaction 0;
        ERemoveInstance "us-west-2" "i-1" None;
        ELog LDebug "CloudWatch Event resulting in deletion"]
  /\ rows w' = delete ("us-west-2", "i-1") (rows Example.empty)
  /\ rows w' = rows Example.empty
  /\ open_txns w' = open_txns Example.empty.
Proof.
  exact (terminal_without_row_removes Example.this
           (mkEnv Example.no_faults (Example.describes Example.owned))
           Example.empty (Example.notification "terminated" 50)
           eq_refl eq_refl eq_refl eq_refl eq_refl eq_refl).
Defined.

(** ** No row, a pending or running state: the EC2 lookup *)

(** C7: when the lookup finds no row, the state is [pending] or [running]
    and [describeInstances] throws, the handler re-throws the error.  If
    its code is [InvalidInstanceID.NotFound] the two [api-lag] counters are
    incremented and the error is not reported; otherwise it is reported and
    no counter moves.  Either way nothing is tagged or written and the
    table is unchanged. *)
Theorem describe_failure_rethrown
    (this : Listener) (env : Env) (w : World) (body : Body) (err : Error) :
  rows w !! key body = None ->
  live body = true ->
  faults env SBeginTransaction = None ->
  faults env SListInstances = None ->
  faults env SCommitTransaction = None ->
  faults env SDescribeInstances = Some err ->
  let '(r, w') := __handler this body env w in
  r = Threw err
  /\ new_events w w' =
       (audit_events env body ++ lookup_events w body ++
        [ECommitTransaction (next_txn w);
         EDescribeInstances [instance_id (b_detail body)]] ++
        (if bool_decide (err_code err = Some "InvalidInstanceID.NotFound")
         then [EMonitorCount "global.api-lag" 1;
               EMonitorCount (b_region body +:+ ".api-lag") 1]
         else [EMonitorReportError err]))%list
  /\ rows w' = rows w
  /\ open_txns w' = open_txns w.
Proof.
  intros Hrow Hlive Hb Hl Hc Hd.
  destruct (faults env SLogCloudWatchEvent) eqn:Ha;
    destruct (bool_decide (err_code err = Some "InvalidInstanceID.NotFound")) eqn:Hcode;
    run_handler; rewrite Hlive; run_handler;
    (repeat split; read_trace).
Qed.

Lemma describe_failure_rethrown_witness :
  let env := mkEnv (Example.fault_at SDescribeInstances Example.not_found)
                   (Example.describes Example.owned) in
  let '(r, w') := __handler Example.this (Example.notification "pending" 50) env Example.empty in
  r = Threw Example.not_found
  /\ new_events Example.empty w' =
       [ELogCloudWatchEvent "us-west-2" "i-1" "pending" (Valid 50);
        EBeginTransaction; EListInstances "us-west-2" "i-1" 0;
        ECommitTransaction 0;
        EDescribeInstances ["i-1"];
        EMonitorCount "global.api-lag" 1;
        EMonitorCount "us-west-2.api-lag" 1]
  /\ rows w' = rows Example.empty
  /\ open_txns w' = open_txns Example.empty.
Proof.
  exact (describe_failure_rethrown Example.this
           (mkEnv (Example.fault_at SDescribeInstances Example.not_found)
                  (Example.describes Example.owned))
           Example.empty (Example.notification "pending" 50) Example.not_found
           eq_refl eq_refl eq_refl eq_refl eq_refl eq_refl).
Defined.

(** ** A row exists *)

Lemma lastevent_kept (m : gmap (string * string) RowData) (k : string * string)
    (d d' : RowData) (L : Z) :
  m !! k = Some d -> lastevent d = FDate (Valid L) -> m !! k = Some d' ->
  exists L', lastevent d' = FDate (Valid L') /\ L <= L'.
Proof.
  intros Hd HL Hd'. rewrite Hd in Hd'. injection Hd' as <-.
  exists L. split; [exact HL | lia].
Qed.

(** One run of the handler on a tracked row never moves its [lastevent]
    backwards, whichever calls fail after the lookup. *)
Lemma lastevent_never_decreases
    (this : Listener) (env : Env) (w : World) (body : Body) (d : RowData) (L : Z) :
  rows w !! key body = Some d ->
  lastevent d = FDate (Valid L) ->
  faults env SBeginTransaction = None ->
  faults env SListInstances = None ->
  forall d', rows (__handler this body env w).2 !! key body = Some d' ->
    exists L', lastevent d' = FDate (Valid L') /\ L <= L'.
Proof.
  intros Hrow HL Hb Hl d'.
  destruct (b_time body) as [G|] eqn:HG; [destruct (L <? G) eqn:Hlt|];
    run_all_paths; intros Hd'.
  all: try (injection Hd' as <-; exists L; split; [exact HL | lia]).
  all: try (rewrite lookup_delete_eq in Hd'; discriminate).
  all: rewrite lookup_alter_eq, Hrow in Hd'; injection Hd' as <-;
    exists G; split; [reflexivity | apply Z.ltb_lt in Hlt; lia].
Qed.

(** What the handler does with a row whose [lastevent] is not older than
    the notification: the out-of-order path, with the measured delay. *)
Lemma out_of_order_path
    (this : Listener) (env : Env) (w : World) (body : Body) (d : RowData) :
  rows w !! key body = Some d ->
  (truthy_field (lastevent d)
   && match lastevent d with
      | FDate le => date_lt le (b_time body)
      | _ => false
      end) = false ->
  faults env SBeginTransaction = None ->
  faults env SListInstances = None ->
  let '(r, w') := __handler this body env w in
  let delay := sub (to_number_field (lastevent d)) (to_number_date (b_time body)) in
  rows w' = rows w
  /\ Forall (fun ev => is_write ev = false) (new_events w w')
  /\ match faults env SCommitTransaction with
     | None =>
         r = Ok tt
         /\ new_events w w' =
              (audit_events env body ++ lookup_events w body ++
               [ECommitTransaction (next_txn w);
                EMonitorCount "global.cwe-out-of-order.count" 1;
                EMonitorCount (b_region body +:+ ".cwe-out-of-order.count") 1;
                EMonitorMeasure "global.cwe-out-of-order.delay" delay;
                EMonitorMeasure (b_region body +:+ ".cwe-out-of-order.delay") delay;
                ELog LInfo "CloudWatch Event delivered out of order"])%list
         /\ open_txns w' = open_txns w
     | Some err =>
         r = Threw err
         /\ new_events w w' =
              (audit_events env body ++ lookup_events w body ++
               [ECommitTransaction (next_txn w)])%list
     end.
Proof.
  intros Hrow Hold Hb Hl.
  destruct (faults env SLogCloudWatchEvent) eqn:Ha;
    destruct (faults env SCommitTransaction) eqn:Hc;
    run_handler; rewrite Hold; run_handler;
    (split; [reflexivity|]); (split; [list_new_events; repeat constructor|]);
    repeat split; read_trace.
Qed.

Lemma round_double_exact (z : Z) : Z.abs z <= 2 ^ 53 -> round_double z = z.
Proof.
  intros Hz. unfold round_double.
  destruct (Z.abs z <=? 2 ^ 53) eqn:Hle; [reflexivity|].
  apply Z.leb_gt in Hle. lia.
Qed.

(** One run of the handler on a tracked row changes the table only for a
    notification whose time is valid and strictly later than the row's
    [lastevent], whichever calls fail after the lookup. *)
Lemma table_changed_only_when_newer
    (this : Listener) (env : Env) (w : World) (body : Body) (d : RowData) (L : Z) :
  rows w !! key body = Some d ->
  lastevent d = FDate (Valid L) ->
  faults env SBeginTransaction = None ->
  faults env SListInstances = None ->
  rows (__handler this body env w).2 <> rows w ->
  exists G, b_time body = Valid G /\ L < G.
Proof.
  intros Hrow HL Hb Hl.
  destruct (b_time body) as [G|] eqn:HG; [destruct (L <? G) eqn:Hlt|];
    run_all_paths; intros Hne.
  all: try (exfalso; apply Hne; reflexivity).
  all: exists G; split; [reflexivity | apply Z.ltb_lt; exact Hlt].
Qed.

(** A [pending] or [running] notification keeps a tracked row in the
    table, with a [lastevent] that is not earlier than before. *)
Lemma live_notification_keeps_row
    (this : Listener) (env : Env) (w : World) (body : Body) (d : RowData) (L : Z) :
  rows w !! key body = Some d ->
  lastevent d = FDate (Valid L) ->
  live body = true ->
  faults env SBeginTransaction = None ->
  faults env SListInstances = None ->
  exists d' L',
    rows (__handler this body env w).2 !! key body = Some d'
    /\ lastevent d' = FDate (Valid L') /\ L <= L'.
Proof.
  intros Hrow HL Hlive Hb Hl. unfold live in Hlive.
  destruct (String.eqb (d_state (b_detail body)) "pending") eqn:Hp;
    [|destruct (String.eqb (d_state (b_detail body)) "running") eqn:Hrun;
      [|discriminate Hlive]].
  all: destruct (b_time body) as [G|] eqn:HG; [destruct (L <? G) eqn:Hlt|];
    run_all_paths.
  all: first
    [ exists d, L; split; [reflexivity | split; [exact HL | lia]]
    | rewrite lookup_alter_eq, Hrow; cbn; eexists _, G;
      split; [reflexivity | split; [reflexivity | apply Z.ltb_lt in Hlt; lia]] ].
Qed.

(** Over any sequence of [pending] or [running] notifications for a
    tracked instance, the [lastevent] of its row never moves backwards. *)
Lemma lastevent_monotone_over_updates
    (this : Listener) (env : Env) (k : string * string) (bodies : list Body) :
  faults env SBeginTransaction = None ->
  faults env SListInstances = None ->
  Forall (fun body => key body = k /\ live body = true) bodies ->
  forall (w : World) (d : RowData) (L : Z),
    rows w !! k = Some d ->
    lastevent d = FDate (Valid L) ->
    exists d' L',
      rows (handle_all this env bodies w) !! k = Some d'
      /\ lastevent d' = FDate (Valid L') /\ L <= L'.
Proof.
  intros Hb Hl Hall.
  induction Hall as [|body bodies [Hkey Hlive] _ IH]; intros w d L Hrow HL.
  - exists d, L. cbn. split; [exact Hrow | split; [exact HL | lia]].
  - subst k. cbn [handle_all].
    destruct (live_notification_keeps_row this env w body d L Hrow HL Hlive Hb Hl)
      as (d1 & L1 & Hrow1 & HL1 & Hle1).
    destruct (IH _ d1 L1 Hrow1 HL1) as (d' & L' & Hrow' & HL' & Hle').
    exists d', L'. split; [exact Hrow' | split; [exact HL' | lia]].
Qed.

(** C2: a notification that is not newer than the [lastevent] of the row
    found ([generated <= lastevent]) never changes the table: no write is
    called, the transaction is committed, both out-of-order counters are
    incremented, the delay [lastevent - generated] is measured (as the
    subtraction of two doubles gives it, exact up to [2 ^ 53]) and the
    handler returns; when the commit throws, its error is the only thing
    that escapes, and the table is still unchanged.  Hence [lastevent]
    never moves backwards: a run changes the table only for a notification
    strictly newer than the row, the row left by any run is not older, and
    over any sequence of [pending] or [running] notifications the row
    stays with a [lastevent] that is not earlier. *)
Theorem stale_notification_dropped
    (this : Listener) (env : Env) (w : World) (body : Body) (d : RowData) (L G : Z) :
  rows w !! key body = Some d ->
  lastevent d = FDate (Valid L) ->
  b_time body = Valid G ->
  G <= L ->
  faults env SBeginTransaction = None ->
  faults env SListInstances = None ->
  let '(r, w') := __handler this body env w in
  rows w' = rows w
  /\ Forall (fun ev => is_write ev = false) (new_events w w')
  /\ match faults env SCommitTransaction with
     | None =>
         r = Ok tt
         /\ new_events w w' =
              (audit_events env body ++ lookup_events w body ++
               [ECommitTransaction (next_txn w);
                EMonitorCount "global.cwe-out-of-order.count" 1;
                EMonitorCount (b_region body +:+ ".cwe-out-of-order.count") 1;
                EMonitorMeasure "global.cwe-out-of-order.delay"
                                (Num (round_double (L - G)));
                EMonitorMeasure (b_region body +:+ ".cwe-out-of-order.delay")
                                (Num (round_double (L - G)));
                ELog LInfo "CloudWatch Event delivered out of order"])%list
         /\ open_txns w' = open_txns w
     | Some err =>
         r = Threw err
         /\ new_events w w' =
              (audit_events env body ++ lookup_events w body ++
               [ECommitTransaction (next_txn w)])%list
     end
  /\ (L - G <= 2 ^ 53 -> round_double (L - G) = L - G)
  /\ (forall d', rows w' !! key body = Some d' ->
        exists L', lastevent d' = FDate (Valid L') /\ L <= L')
  /\ (forall other, key other = key body ->
        rows (__handler this other env w).2 <> rows w ->
        exists G', b_time other = Valid G' /\ L < G')
  /\ (forall other, key other = key body ->
        forall d', rows (__handler this other env w).2 !! key body = Some d' ->
        exists L', lastevent d' = FDate (Valid L') /\ L <= L')
  /\ (forall bodies,
        Forall (fun other => key other = key body /\ live other = true) bodies ->
        exists d' L',
          rows (handle_all this env bodies w) !! key body = Some d'
          /\ lastevent d' = FDate (Valid L') /\ L <= L').
Proof.
  intros Hrow HL HG Hle Hb Hl.
  pose proof (out_of_order_path this env w body d Hrow) as Hpath.
  pose proof (lastevent_never_decreases this env w body d L Hrow HL Hb Hl) as Hmono.
  rewrite HL, HG in Hpath. cbn in Hpath.
  assert (Hlt : (L <? G) = false) by (apply Z.ltb_ge; lia).
  specialize (Hpath Hlt Hb Hl).
  destruct (__handler this body env w) as [r w'].
  destruct Hpath as (Hrows & Hnowrite & Hrest).
  split; [exact Hrows|]. split; [exact Hnowrite|]. split; [exact Hrest|].
  split; [intros Hsmall; apply round_double_exact; lia|].
  split; [exact Hmono|].
  split; [|split].
  - intros other Hkey. rewrite <- Hkey in Hrow.
    exact (table_changed_only_when_newer this env w other d L Hrow HL Hb Hl).
  - intros other Hkey. rewrite <- Hkey in *.
    exact (lastevent_never_decreases this env w other d L Hrow HL Hb Hl).
  - intros bodies Hall.
    exact (lastevent_monotone_over_updates this env (key body) bodies Hb Hl Hall
             w d L Hrow HL).
Qed.

Lemma stale_notification_dropped_witness :
  let env := mkEnv Example.no_faults (Example.describes Example.owned) in
  let w := Example.tracked Example.row in
  let '(r, w') := __handler Example.this (Example.notification "running" 40) env w in
  rows w' = rows w
  /\ Forall (fun ev => is_write ev = false) (new_events w w')
  /\ (r = Ok tt
      /\ new_events w w' =
           [ELogCloudWatchEvent "us-west-2" "i-1" "running" (Valid 40);
            EBeginTransaction; EListInstances "us-west-2" "i-1" 0;
            ECommitTransaction 0;
            EMonitorCount "global.cwe-out-of-order.count" 1;
            EMonitorCount "us-west-2.cwe-out-of-order.count" 1;
            EMonitorMeasure "global.cwe-out-of-order.delay" (Num 60);
            EMonitorMeasure "us-west-2.cwe-out-of-order.delay" (Num 60);
            ELog LInfo "CloudWatch Event delivered out of order"]
      /\ open_txns w' = open_txns w)
  /\ (exists d' L',
        rows (handle_all Example.this env
                [Example.notification "running" 200; Example.notification "pending" 150] w)
          !! ("us-west-2", "i-1") = Some d'
        /\ lastevent d' = FDate (Valid L') /\ 100 <= L').
Proof.
  intros env w.
  pose proof (stale_notification_dropped Example.this env w
                (Example.notification "running" 40) Example.row 100 40
                eq_refl eq_refl eq_refl ltac:(lia) eq_refl eq_refl) as H.
  destruct (__handler Example.this (Example.notification "running" 40) env w) as [r w'].
  destruct H as (Hrows & Hnowrite & Hrest & _ & _ & _ & _ & Hseq).
  split; [exact Hrows|]. split; [exact Hnowrite|]. split; [exact Hrest|].
  apply Hseq. repeat constructor.
Defined.

(** C10: a row whose [lastevent] is [null] or absent is never updated or
    removed through the row-exists branch: whatever the time of the
    notification, the handler takes the out-of-order path, calls no write,
    commits the transaction and increments the out-of-order counters; the
    table is left as it was. *)
Theorem row_without_lastevent_untouched
    (this : Listener) (env : Env) (w : World) (body : Body) (d : RowData) :
  rows w !! key body = Some d ->
  lastevent d = FNull \/ lastevent d = FUndefined ->
  faults env SBeginTransaction = None ->
  faults env SListInstances = None ->
  let '(r, w') := __handler this body env w in
  let delay := sub (to_number_field (lastevent d)) (to_number_date (b_time body)) in
  rows w' = rows w
  /\ Forall (fun ev => is_write ev = false) (new_events w w')
  /\ match faults env SCommitTransaction with
     | None =>
         r = Ok tt
         /\ new_events w w' =
              (audit_events env body ++ lookup_events w body ++
               [ECommitTransaction (next_txn w);
                EMonitorCount "global.cwe-out-of-order.count" 1;
                EMonitorCount (b_region body +:+ ".cwe-out-of-order.count") 1;
                EMonitorMeasure "global.cwe-out-of-order.delay" delay;
                EMonitorMeasure (b_region body +:+ ".cwe-out-of-order.delay") delay;
                ELog LInfo "CloudWatch Event delivered out of order"])%list
         /\ open_txns w' = open_txns w
     | Some err =>
         r = Threw err
         /\ new_events w w' =
              (audit_events env body ++ lookup_events w body ++
               [ECommitTransaction (next_txn w)])%list
     end.
Proof.
  intros Hrow Hnone Hb Hl.
  apply (out_of_order_path this env w body d Hrow); [|exact Hb|exact Hl].
  destruct Hnone as [-> | ->]; reflexivity.
Qed.

Lemma row_without_lastevent_untouched_witness :
  let env := mkEnv Example.no_faults (Example.describes Example.owned) in
  let d := mkRowData "worker" "us-west-2a" "m3.large" "ami-1" None (Valid 7) "pending" FNull in
  let w := Example.tracked d in
  let '(r, w') := __handler Example.this (Example.notification "terminated" 5000) env w in
  rows w' = rows w
  /\ Forall (fun ev => is_write ev = false) (new_events w w')
  /\ (r = Ok tt
      /\ new_events w w' =
           [ELogCloudWatchEvent "us-west-2" "i-1" "terminated" (Valid 5000);
            EBeginTransaction; EListInstances "us-west-2" "i-1" 0;
            ECommitTransaction 0;
            EMonitorCount "global.cwe-out-of-order.count" 1;
            EMonitorCount "us-west-2.cwe-out-of-order.count" 1;
            EMonitorMeasure "global.cwe-out-of-order.delay" (Num (-5000));
            EMonitorMeasure "us-west-2.cwe-out-of-order.delay" (Num (-5000));
            ELog LInfo "CloudWatch Event delivered out of order"]
      /\ open_txns w' = open_txns w).
Proof.
  exact (row_without_lastevent_untouched Example.this
           (mkEnv Example.no_faults (Example.describes Example.owned))
           (Example.tracked (mkRowData "worker" "us-west-2a" "m3.large" "ami-1" None
                                       (Valid 7) "pending" FNull))
           (Example.notification "terminated" 5000)
           (mkRowData "worker" "us-west-2a" "m3.large" "ami-1" None (Valid 7) "pending" FNull)
           eq_refl (or_introl eq_refl) eq_refl eq_refl).
Defined.

Lemma alter_found (m : gmap (string * string) RowData) (k : string * string)
    (f : RowData -> RowData) (d : RowData) :
  m !! k = Some d -> alter f k m = <[k := f d]> m.
Proof.
  intros Hd. apply map_eq. intros j.
  destruct (decide (k = j)) as [<-|Hne].
  - rewrite lookup_alter_eq, lookup_insert_eq, Hd. reflexivity.
  - rewrite lookup_alter_ne, lookup_insert_ne by exact Hne. reflexivity.
Qed.

(** C3: a notification newer than the [lastevent] of the row found is
    applied inside the transaction: for [pending] or [running] the row's
    [state] and [lastevent] are updated in place, for any other state the
    row is removed, and the transaction is committed.  When the write or
    the commit throws, the transaction is rolled back, the table is left as
    it was and the same error is thrown to the caller. *)
Theorem newer_notification_applied
    (this : Listener) (env : Env) (w : World) (body : Body) (d : RowData) (L G : Z) :
  rows w !! key body = Some d ->
  lastevent d = FDate (Valid L) ->
  b_time body = Valid G ->
  L < G ->
  faults env SBeginTransaction = None ->
  faults env SListInstances = None ->
  faults env SRollbackTransaction = None ->
  let region := b_region body in
  let id := instance_id (b_detail body) in
  let st := d_state (b_detail body) in
  let t := next_txn w in
  let write_step := if live body then SUpdateInstanceState else SRemoveInstance in
  let write_call := if live body then EUpdateInstanceState region id st (Valid G) t
                    else ERemoveInstance region id (Some t) in
  let write_note := if live body then ELog LInfo "CloudWatch Event resulting in insertion"
                    else ELog LDebug "CloudWatch Event resulting in deletion" in
  let '(r, w') := __handler this body env w in
  open_txns w' = open_txns w
  /\ match faults env write_step, faults env SCommitTransaction with
     | None, None =>
         r = Ok tt
         /\ rows w' = (if live body then <[key body := updated d st (Valid G)]> (rows w)
                       else delete (key body) (rows w))
         /\ new_events w w' =
              (audit_events env body ++ lookup_events w body ++
               [write_call; write_note; ECommitTransaction t])%list
     | Some err, _ =>
         r = Threw err
         /\ rows w' = rows w
         /\ new_events w w' =
              (audit_events env body ++ lookup_events w body ++
               [write_call; ERollbackTransaction t;
                ELog LError "trying to update or remove instance"])%list
     | None, Some err =>
         r = Threw err
         /\ rows w' = rows w
         /\ new_events w w' =
              (audit_events env body ++ lookup_events w body ++
               [write_call; write_note; ECommitTransaction t; ERollbackTransaction t;
                ELog LError "trying to update or remove instance"])%list
     end.
Proof.
  intros Hrow HL HG Hlt Hb Hl Hrb.
  apply Z.ltb_lt in Hlt.
  destruct (faults env SLogCloudWatchEvent) eqn:Ha;
    destruct (String.eqb (d_state (b_detail body)) "pending") eqn:Hp;
    destruct (String.eqb (d_state (b_detail body)) "running") eqn:Hrun;
    destruct (faults env SCommitTransaction) eqn:Hc;
    run_all_paths;
    repeat split; try read_trace; try (rewrite (alter_found _ _ _ d Hrow); reflexivity).
Qed.

Lemma newer_notification_applied_witness :
  let env := mkEnv Example.no_faults (Example.describes Example.owned) in
  let w := Example.tracked Example.row in
  let '(r, w') := __handler Example.this (Example.notification "running" 200) env w in
  open_txns w' = open_txns w
  /\ r = Ok tt
  /\ rows w' = <[("us-west-2", "i-1") := updated Example.row "running" (Valid 200)]> (rows w)
  /\ new_events w w' =
       [ELogCloudWatchEvent "us-west-2" "i-1" "running" (Valid 200);
        EBeginTransaction; EListInstances "us-west-2" "i-1" 0;
        EUpdateInstanceState "us-west-2" "i-1" "running" (Valid 200) 0;
        ELog LInfo "CloudWatch Event resulting in insertion";
        ECommitTransaction 0].
Proof.
  exact (newer_notification_applied Example.this
           (mkEnv Example.no_faults (Example.describes Example.owned))
           (Example.tracked Example.row) (Example.notification "running" 200)
           Example.row 100 200 eq_refl eq_refl eq_refl ltac:(lia) eq_refl eq_refl eq_refl).
Defined.

(** ** No row, a pending or running state: the instance is described *)

(** C6: when the lookup finds no row, the state is [pending] or [running]
    and the EC2 API describes the instance, [upsertInstance] is called
    (once, with the fields of the description, the state of the
    notification and [lastevent] its time) exactly when the key name gives
    a [workerType] and its first piece is the listener's [provisionerId];
    the row is then in the table.  For a key name without a colon, or with
    another first piece, nothing is upserted and the table is unchanged,
    whichever later call fails. *)
Theorem upsert_iff_owned
    (this : Listener) (env : Env) (w : World) (body : Body)
    (instance : Instance) (keyName : string) :
  rows w !! key body = None ->
  live body = true ->
  faults env SBeginTransaction = None ->
  faults env SListInstances = None ->
  faults env SCommitTransaction = None ->
  faults env SDescribeInstances = None ->
  ec2_describeInstances env (instance_id (b_detail body))
    = mkApiResponse [mkReservation [instance]] ->
  KeyName instance = Some keyName ->
  let region := b_region body in
  let id := instance_id (b_detail body) in
  let '(provisionerId, workerType) := split_key_name keyName in
  let owned := truthy_string workerType
               && bool_decide (provisionerId = Some (CloudWatchEventListener.provisionerId this)) in
  let tagged := truthy_string workerType && missingTags instance in
  let srid := if truthy_string (SpotInstanceRequestId instance)
              then SpotInstanceRequestId instance else None in
  let opts := mkOpts workerType region (AvailabilityZone instance) (InstanceType instance)
                     (ImageId instance) id (d_state (b_detail body)) (LaunchTime instance)
                     srid (b_time body) in
  let '(r, w') := __handler this body env w in
  (owned = false ->
     List.filter is_upsert (new_events w w') = [] /\ rows w' = rows w)
  /\ (tagged = false \/ faults env STagResources = None ->
        List.filter is_upsert (new_events w w')
          = (if owned then [EUpsertInstance opts] else [])
        /\ (owned = true -> faults env SUpsertInstance = None ->
              r = Ok tt
              /\ rows w' =
                   <[key body :=
                       mkRowData (default "" workerType) (AvailabilityZone instance)
                                 (InstanceType instance) (ImageId instance) srid
                                 (LaunchTime instance) (d_state (b_detail body))
                                 (FDate (b_time body))]> (rows w)
              /\ new_events w w' =
                   (audit_events env body ++ lookup_events w body ++
                    [ECommitTransaction (next_txn w); EDescribeInstances [id]] ++
                    (if tagged then [ETagResources [id] (default "" workerType) region]
                     else []) ++
                    [EUpsertInstance opts;
                     ELog LInfo "CloudWatch Event resulting in insertion"])%list)).
Proof.
  intros Hrow Hlive Hb Hl Hc Hd Hresp Hkey.
  destruct (split_key_name keyName) as [pid wt] eqn:Hsplit.
  run_handler. rewrite Hlive. run_all_paths.
  all: split;
    [ intros Hown; first
        [ discriminate Hown
        | split; [list_new_events; reflexivity | reflexivity] ]
    | intros Htag; first
        [ solve [destruct Htag; discriminate]
        | split;
          [ list_new_events; reflexivity
          | intros Hown Hup; try discriminate; repeat split; read_trace ] ] ].
Qed.

Lemma upsert_iff_owned_witness :
  let env := mkEnv Example.no_faults (Example.describes Example.owned) in
  let w := Example.empty in
  let body := Example.notification "pending" 50 in
  let opts := mkOpts (Some "worker") "us-west-2" "us-west-2a" "m3.large" "ami-1" "i-1"
                     "pending" (Valid 7) (Some "sir-1") (Valid 50) in
  let '(r, w') := __handler Example.this body env w in
  r = Ok tt
  /\ List.filter is_upsert (new_events w w') = [EUpsertInstance opts]
  /\ rows w' =
       <[("us-west-2", "i-1") :=
           mkRowData "worker" "us-west-2a" "m3.large" "ami-1" (Some "sir-1") (Valid 7)
                     "pending" (FDate (Valid 50))]> (rows w).
Proof.
  intros env w body opts.
  pose proof (upsert_iff_owned Example.this env w body Example.owned "prov:worker:hash"
                eq_refl eq_refl eq_refl eq_refl eq_refl eq_refl eq_refl eq_refl) as H.
  cbv zeta in H.
  change (split_key_name "prov:worker:hash") with (Some "prov", Some "worker") in H.
  cbv beta iota in H.
  destruct (__handler Example.this body env w) as [r w'].
  destruct H as [_ H].
  destruct (H (or_intror eq_refl)) as [Hupsert Hrest].
  destruct (Hrest eq_refl eq_refl) as (Hr & Hrows & _).
  repeat split; assumption.
Defined.

(** C8, as the code has it: in the branch without a row and with a
    [pending] or [running] state, [tagResources] is called (once, for the
    instance, with its [workerType] and region) exactly when the key name
    gives a [workerType] and the description has no [Owner] tag; the call
    is awaited without a handler, so when it throws the handler throws the
    same error and [upsertInstance] is not called. *)
Theorem tagging_failure_propagates
    (this : Listener) (env : Env) (w : World) (body : Body)
    (instance : Instance) (keyName : string) :
  rows w !! key body = None ->
  live body = true ->
  faults env SBeginTransaction = None ->
  faults env SListInstances = None ->
  faults env SCommitTransaction = None ->
  faults env SDescribeInstances = None ->
  ec2_describeInstances env (instance_id (b_detail body))
    = mkApiResponse [mkReservation [instance]] ->
  KeyName instance = Some keyName ->
  let region := b_region body in
  let id := instance_id (b_detail body) in
  let '(provisionerId, workerType) := split_key_name keyName in
  let tagged := truthy_string workerType && missingTags instance in
  let '(r, w') := __handler this body env w in
  List.filter is_tagging (new_events w w')
    = (if tagged then [ETagResources [id] (default "" workerType) region] else [])
  /\ (forall err, tagged = true -> faults env STagResources = Some err ->
        r = Threw err
        /\ List.filter is_upsert (new_events w w') = []
        /\ rows w' = rows w
        /\ new_events w w' =
             (audit_events env body ++ lookup_events w body ++
              [ECommitTransaction (next_txn w); EDescribeInstances [id];
               ETagResources [id] (default "" workerType) region])%list).
Proof.
  intros Hrow Hlive Hb Hl Hc Hd Hresp Hkey.
  destruct (split_key_name keyName) as [pid wt] eqn:Hsplit.
  run_handler. rewrite Hlive. run_all_paths.
  all: split;
    [ list_new_events; reflexivity
    | intros err Htagged Hfault; first
        [ discriminate Htagged
        | discriminate Hfault
        | injection Hfault as <-;
          split; [reflexivity|]; split; [list_new_events; reflexivity|];
          split; [reflexivity | read_trace] ] ].
Qed.

Lemma tagging_failure_propagates_witness :
  let env := mkEnv (Example.fault_at STagResources Example.connection_lost)
                   (Example.describes Example.owned) in
  let w := Example.empty in
  let body := Example.notification "pending" 50 in
  let '(r, w') := __handler Example.this body env w in
  List.filter is_tagging (new_events w w') = [ETagResources ["i-1"] "worker" "us-west-2"]
  /\ r = Threw Example.connection_lost
  /\ List.filter is_upsert (new_events w w') = []
  /\ rows w' = rows w.
Proof.
  intros env w body.
  pose proof (tagging_failure_propagates Example.this env w body Example.owned
                "prov:worker:hash"
                eq_refl eq_refl eq_refl eq_refl eq_refl eq_refl eq_refl eq_refl) as H.
  cbv zeta in H.
  change (split_key_name "prov:worker:hash") with (Some "prov", Some "worker") in H.
  cbv beta iota in H.
  destruct (__handler Example.this body env w) as [r w'].
  destruct H as [Htag H].
  destruct (H Example.connection_lost eq_refl eq_refl) as (Hr & Hupsert & Hrows & _).
  repeat split; assumption.
Defined.

(** C8, as stated, fails: tagging is not best effort.  For an instance of
    this provisioner without an [Owner] tag, a [tagResources] call that
    throws makes the handler throw, and the row is never upserted. *)
Lemma tagging_failure_prevents_upsert :
  let env := mkEnv (Example.fault_at STagResources Example.connection_lost)
                   (Example.describes Example.owned) in
  let '(r, w') := __handler Example.this (Example.notification "pending" 50) env Example.empty in
  r = Threw Example.connection_lost
  /\ trace w' =
       [ELogCloudWatchEvent "us-west-2" "i-1" "pending" (Valid 50);
        EBeginTransaction; EListInstances "us-west-2" "i-1" 0;
        ECommitTransaction 0;
        EDescribeInstances ["i-1"];
        ETagResources ["i-1"] "worker" "us-west-2"]
  /\ rows w' !! ("us-west-2", "i-1") = None.
Proof.
  vm_compute. repeat split; reflexivity.
Qed.

(** ** The transaction on every path *)

(** C4, as the code has it: on every path of the handler on which the
    lookup succeeds, the transaction opened by [beginTransaction] is ended
    by one call, a commit or a rollback, except when the commit that
    follows a write throws: the failed commit is then followed by the
    rollback.  When the last of these calls does not throw, no transaction
    is left open. *)
Theorem transaction_ended_on_every_path
    (this : Listener) (env : Env) (w : World) (body : Body) :
  faults env SBeginTransaction = None ->
  faults env SListInstances = None ->
  let t := next_txn w in
  let '(r, w') := __handler this body env w in
  let ending := closing_calls t (new_events w w') in
  (ending = [ECommitTransaction t]
   \/ ending = [ERollbackTransaction t]
   \/ (ending = [ECommitTransaction t; ERollbackTransaction t]
       /\ is_Some (faults env SCommitTransaction)))
  /\ (last ending = Some (ECommitTransaction t) ->
      faults env SCommitTransaction = None -> open_txns w' = open_txns w)
  /\ (last ending = Some (ERollbackTransaction t) ->
      faults env SRollbackTransaction = None -> open_txns w' = open_txns w).
Proof.
  intros Hb Hl.
  destruct (rows w !! key body) as [d|] eqn:Hrow.
  - run_every_path.
    all: list_new_events; cbn [closing_calls List.filter closes app]; use_facts; cbn.
    all: (split;
      [ first [ left; reflexivity | right; left; reflexivity
              | right; right; split; [reflexivity | eexists; reflexivity] ]
      | split; intros Hlast Hok; first [discriminate Hlast | discriminate Hok | reflexivity] ]).
  - run_every_path.
    all: list_new_events; cbn [closing_calls List.filter closes app]; use_facts; cbn.
    all: (split;
      [ first [ left; reflexivity | right; left; reflexivity
              | right; right; split; [reflexivity | eexists; reflexivity] ]
      | split; intros Hlast Hok; first [discriminate Hlast | discriminate Hok | reflexivity] ]).
Qed.

Lemma transaction_ended_on_every_path_witness :
  let env := mkEnv Example.no_faults (Example.describes Example.owned) in
  let w := Example.tracked Example.row in
  let '(r, w') := __handler Example.this (Example.notification "running" 200) env w in
  closing_calls 0 (new_events w w') = [ECommitTransaction 0]
  /\ open_txns w' = open_txns w.
Proof.
  intros env w.
  pose proof (transaction_ended_on_every_path Example.this env w
                (Example.notification "running" 200) eq_refl eq_refl) as H.
  cbv zeta in H.
  destruct (__handler Example.this (Example.notification "running" 200) env w)
    as [r w'] eqn:E.
  vm_compute in E. injection E as <- <-.
  destruct H as (_ & H & _).
  split; [reflexivity | exact (H eq_refl eq_refl)].
Defined.

(** C4, as stated, fails: when the commit that follows the update throws,
    the handler calls both the commit and the rollback on the transaction. *)
Lemma failed_commit_then_rollback :
  let env := mkEnv (Example.fault_at SCommitTransaction Example.connection_lost)
                   (Example.describes Example.owned) in
  let w := Example.tracked Example.row in
  let '(r, w') := __handler Example.this (Example.notification "running" 200) env w in
  r = Threw Example.connection_lost
  /\ trace w' =
       [ELogCloudWatchEvent "us-west-2" "i-1" "running" (Valid 200);
        EBeginTransaction; EListInstances "us-west-2" "i-1" 0;
        EUpdateInstanceState "us-west-2" "i-1" "running" (Valid 200) 0;
        ELog LInfo "CloudWatch Event resulting in insertion";
        ECommitTransaction 0;
        ERollbackTransaction 0;
        ELog LError "trying to update or remove instance"]
  /\ closing_calls 0 (trace w') = [ECommitTransaction 0; ERollbackTransaction 0]
  /\ length (closing_calls 0 (trace w')) <> 1%nat.
Proof.
  vm_compute. repeat split; try reflexivity. discriminate.
Qed.

(** ** Splitting and joining *)

Lemma join_cons_split (sep : ascii) (c : ascii) (piece : string) (pieces : list string) :
  JsArray.join (String sep "") (String c piece :: pieces)
  = String c (JsArray.join (String sep "") (piece :: pieces)).
Proof.
  destruct pieces; reflexivity.
Qed.

(** X1: joining the pieces of [s.split(sep)] with the separator gives [s]
    back. *)
Theorem join_split (sep : ascii) (s : string) :
  JsArray.join (String sep "") (split sep s) = s.
Proof.
  induction s as [|c rest IH]; [reflexivity|].
  cbn [split]. destruct (Ascii.eqb c sep) eqn:Hc.
  - apply Ascii.eqb_eq in Hc. subst c.
    pose proof (split_not_nil sep rest) as Hne.
    destruct (split sep rest) as [|piece pieces]; [congruence|].
    cbn [JsArray.join]. cbn [JsArray.join] in IH. rewrite IH. reflexivity.
  - pose proof (split_not_nil sep rest) as Hne.
    destruct (split sep rest) as [|piece pieces]; [congruence|].
    rewrite join_cons_split, IH. reflexivity.
Qed.

(** X2: [s.split(sep)] has one piece more than [s] has separators, and no
    piece contains the separator. *)
Theorem split_pieces (sep : ascii) (s : string) :
  length (split sep s) = S (count_sep sep s)
  /\ Forall (fun piece => contains sep piece = false) (split sep s).
Proof.
  induction s as [|c rest [IHlen IHall]]; cbn [split count_sep].
  - split; [reflexivity | repeat constructor].
  - destruct (Ascii.eqb c sep) eqn:Hc.
    + split; [cbn; rewrite IHlen; reflexivity | constructor; [reflexivity | exact IHall]].
    + destruct (split sep rest) as [|piece pieces]; [discriminate IHlen|].
      split; [exact IHlen|].
      inversion IHall as [|? ? Hpiece Hrest]; subst.
      constructor; [cbn; rewrite Hc; exact Hpiece | exact Hrest].
Qed.

(** ** The ownership tag *)

Lemma missingTags_fold (tags : list Tag) (acc : bool) :
  fold_left (fun hasTag tag => if String.eqb (Key tag) "Owner" then true else hasTag) tags acc
  = acc || existsb (fun tag => String.eqb (Key tag) "Owner") tags.
Proof.
  revert acc. induction tags as [|tag tags IH]; intros acc; cbn.
  - rewrite orb_false_r. reflexivity.
  - rewrite IH. destruct (String.eqb (Key tag) "Owner"), acc; reflexivity.
Qed.

(** X3: [missingTags] answers [false] exactly when the description has a
    list of tags and one of them has the key [Owner]; a description without
    a [Tags] field, with an empty list or with other keys only misses the
    tag. *)
Theorem missingTags_iff (obj : Instance) :
  missingTags obj = false
  <-> exists tags, Tags obj = Some tags /\ exists tag, In tag tags /\ Key tag = "Owner".
Proof.
  unfold missingTags. destruct (Tags obj) as [tags|].
  - rewrite missingTags_fold. cbn [orb]. rewrite negb_false_iff, existsb_exists.
    split.
    + intros (tag & Hin & Hkey). apply String.eqb_eq in Hkey. eauto.
    + intros (tags' & [= <-] & tag & Hin & Hkey).
      exists tag. split; [exact Hin | apply String.eqb_eq; exact Hkey].
  - cbn. split; [discriminate | intros (tags & Hsome & _); discriminate].
Qed.

(** ** What every run of the handler keeps *)

(** Whatever fails, one run of the handler appends the notification to the
    event log when the audit write succeeds, leaves the rows of every other
    instance alone, calls the EC2 API, the tagger and the upsert only after
    a call that ends its transaction, and calls none of them for a state
    other than [pending] or [running], nor when the lookup has found a
    row. *)
Lemma handler_invariants (this : Listener) (env : Env) (w : World) (body : Body) :
  let '(r, w') := __handler this body env w in
  cloudwatch_log w' =
    (cloudwatch_log w ++
     match faults env SLogCloudWatchEvent with
     | None => [audit_entry body]
     | Some _ => []
     end)%list
  /\ (State.staged (next_txn w) (open_txns w) = None ->
      forall k, k <> key body -> rows w' !! k = rows w !! k)
  /\ outside_after_end (next_txn w) false (new_events w w') = true
  /\ (live body = false -> List.filter is_outside (new_events w w') = [])
  /\ (is_Some (rows w !! key body) -> faults env SListInstances = None ->
      List.filter is_outside (new_events w w') = [])
  /\ (exists rest,
        new_events w w' = (audit_events env body ++ EBeginTransaction :: rest)%list).
Proof.
  unfold audit_entry, audit_events.
  destruct (rows w !! key body) as [d|] eqn:Hrow; run_every_path.
  all: list_new_events;
    cbn [outside_after_end closes is_outside is_describe is_tagging is_upsert
         orb andb List.filter app];
    use_facts; rewrite ?app_nil_r.
  all: repeat split; try reflexivity.
  all: first
    [ intros Hfresh k Hk; rewrite ?Hfresh; cbn [default from_option id fold_left];
      rewrite ?lookup_insert_ne, ?lookup_delete_ne, ?lookup_alter_ne by congruence;
      reflexivity
    | intros; congruence
    | intros [? ?]; congruence
    | eexists; reflexivity ].
Qed.

(** X4: every notification whose audit write succeeds is appended to the
    event log exactly once, on every path of the handler and whatever
    fails afterwards.  When the audit write throws, the log is unchanged,
    the error is reported to the monitor and the handler goes on: on every
    path its next call is [beginTransaction]. *)
Theorem audit_logged_once (this : Listener) (env : Env) (w : World) (body : Body) :
  let '(r, w') := __handler this body env w in
  cloudwatch_log w' =
    (cloudwatch_log w ++
     match faults env SLogCloudWatchEvent with
     | None => [audit_entry body]
     | Some _ => []
     end)%list
  /\ exists rest,
       new_events w w' =
         (ELogCloudWatchEvent (b_region body) (instance_id (b_detail body))
                              (d_state (b_detail body)) (b_time body)
          :: match faults env SLogCloudWatchEvent with
             | None => []
             | Some err => [EMonitorReportError err]
             end
          ++ EBeginTransaction :: rest)%list.
Proof.
  pose proof (handler_invariants this env w body) as H.
  destruct (__handler this body env w) as [r w'].
  destruct H as (Hlog & _ & _ & _ & _ & rest & Hnew).
  split; [exact Hlog|]. exists rest. rewrite Hnew. unfold audit_events.
  destruct (faults env SLogCloudWatchEvent); reflexivity.
Qed.

(** X5: one run of the handler never changes the row of another instance,
    on any path and whatever fails, provided the transaction handle it is
    given is not one of a transaction already open. *)
Theorem other_rows_untouched
    (this : Listener) (env : Env) (w : World) (body : Body) (k : string * string) :
  State.staged (next_txn w) (open_txns w) = None ->
  k <> key body ->
  rows (__handler this body env w).2 !! k = rows w !! k.
Proof.
  intros Hfresh Hk.
  pose proof (handler_invariants this env w body) as H.
  destruct (__handler this body env w) as [r w'].
  destruct H as (_ & H & _). exact (H Hfresh k Hk).
Qed.

Lemma other_rows_untouched_witness :
  let env := mkEnv (Example.fault_at SListInstances Example.connection_lost)
                   (Example.describes Example.owned) in
  let w := mkWorld {[ ("us-west-2", "i-1") := Example.row; ("us-west-2", "i-2") := Example.row ]}
                   [] 3%nat [(1%nat, [WRemove "us-west-2" "i-2"])] [] in
  rows (__handler Example.this (Example.notification "terminated" 50) env w).2
    !! ("us-west-2", "i-2") = Some Example.row.
Proof.
  intros env w.
  rewrite (other_rows_untouched Example.this env w (Example.notification "terminated" 50)
             ("us-west-2", "i-2") eq_refl ltac:(discriminate)).
  reflexivity.
Defined.

(** X6: on every path the handler calls the EC2 API, the tagger and
    [upsertInstance] only after it has called the commit or the rollback
    of its transaction: none of them is called while the row is locked. *)
Theorem outside_calls_after_transaction
    (this : Listener) (env : Env) (w : World) (body : Body) :
  outside_after_end (next_txn w) false (new_events w (__handler this body env w).2) = true.
Proof.
  pose proof (handler_invariants this env w body) as H.
  destruct (__handler this body env w) as [r w']. apply H.
Qed.

(** X7: for a state other than [pending] or [running] the handler never
    calls the EC2 API, the tagger or [upsertInstance], on any path, even
    when the lookup throws. *)
Theorem terminal_state_no_outside_calls
    (this : Listener) (env : Env) (w : World) (body : Body) :
  live body = false ->
  List.filter is_outside (new_events w (__handler this body env w).2) = [].
Proof.
  intros Hlive.
  pose proof (handler_invariants this env w body) as H.
  destruct (__handler this body env w) as [r w'].
  destruct H as (_ & _ & _ & H & _). exact (H Hlive).
Qed.

Lemma terminal_state_no_outside_calls_witness :
  let env := mkEnv (Example.fault_at SListInstances Example.connection_lost)
                   (Example.describes Example.owned) in
  let w := Example.tracked Example.row in
  List.filter is_outside
    (new_events w (__handler Example.this (Example.notification "stopped" 50) env w).2) = [].
Proof.
  exact (terminal_state_no_outside_calls Example.this
           (mkEnv (Example.fault_at SListInstances Example.connection_lost)
                  (Example.describes Example.owned))
           (Example.tracked Example.row) (Example.notification "stopped" 50) eq_refl).
Defined.

(** X8: when the lookup finds a row, the handler never calls the EC2 API,
    the tagger or [upsertInstance], whatever the state and the times and
    whatever fails afterwards. *)
Theorem found_row_no_outside_calls
    (this : Listener) (env : Env) (w : World) (body : Body) (d : RowData) :
  rows w !! key body = Some d ->
  faults env SListInstances = None ->
  List.filter is_outside (new_events w (__handler this body env w).2) = [].
Proof.
  intros Hrow Hl.
  pose proof (handler_invariants this env w body) as H.
  destruct (__handler this body env w) as [r w'].
  destruct H as (_ & _ & _ & _ & H & _). apply H; [rewrite Hrow; eauto | exact Hl].
Qed.

Lemma found_row_no_outside_calls_witness :
  let env := mkEnv Example.no_faults (Example.describes Example.owned) in
  let w := Example.tracked Example.row in
  List.filter is_outside
    (new_events w (__handler Example.this (Example.notification "pending" 500) env w).2) = [].
Proof.
  exact (found_row_no_outside_calls Example.this
           (mkEnv Example.no_faults (Example.describes Example.owned))
           (Example.tracked Example.row) (Example.notification "pending" 500)
           Example.row eq_refl eq_refl).
Defined.

(** ** Failures before and inside the EC2 branch *)

(** X9: when [beginTransaction] throws, the handler throws the same error
    after the audit step only: nothing is looked up or written, no
    transaction is opened or ended. *)
Theorem begin_failure_rethrown
    (this : Listener) (env : Env) (w : World) (body : Body) (err : Error) :
  faults env SBeginTransaction = Some err ->
  let '(r, w') := __handler this body env w in
  r = Threw err
  /\ new_events w w' = (audit_events env body ++ [EBeginTransaction])%list
  /\ rows w' = rows w
  /\ open_txns w' = open_txns w
  /\ next_txn w' = next_txn w.
Proof.
  intros Hb.
  destruct (faults env SLogCloudWatchEvent) eqn:Ha; run_handler;
    repeat split; read_trace.
Qed.

Lemma begin_failure_rethrown_witness :
  let env := mkEnv (Example.fault_at SBeginTransaction Example.connection_lost)
                   (Example.describes Example.owned) in
  let w := Example.tracked Example.row in
  let '(r, w') := __handler Example.this (Example.notification "running" 200) env w in
  r = Threw Example.connection_lost
  /\ new_events w w' =
       [ELogCloudWatchEvent "us-west-2" "i-1" "running" (Valid 200); EBeginTransaction]
  /\ rows w' = rows w
  /\ open_txns w' = open_txns w
  /\ next_txn w' = next_txn w.
Proof.
  exact (begin_failure_rethrown Example.this
           (mkEnv (Example.fault_at SBeginTransaction Example.connection_lost)
                  (Example.describes Example.owned))
           (Example.tracked Example.row) (Example.notification "running" 200)
           Example.connection_lost eq_refl).
Defined.

(** X10: when the EC2 API answers with anything but one reservation
    holding one instance, the handler throws an assertion error right after
    the call: nothing is tagged or written. *)
Theorem malformed_description_rejected
    (this : Listener) (env : Env) (w : World) (body : Body) :
  rows w !! key body = None ->
  live body = true ->
  faults env SBeginTransaction = None ->
  faults env SListInstances = None ->
  faults env SCommitTransaction = None ->
  faults env SDescribeInstances = None ->
  (forall instance, ec2_describeInstances env (instance_id (b_detail body))
                    <> mkApiResponse [mkReservation [instance]]) ->
  let '(r, w') := __handler this body env w in
  r = Threw AssertionError
  /\ new_events w w' =
       (audit_events env body ++ lookup_events w body ++
        [ECommitTransaction (next_txn w);
         EDescribeInstances [instance_id (b_detail body)]])%list
  /\ rows w' = rows w.
Proof.
  intros Hrow Hlive Hb Hl Hc Hd Hshape.
  destruct (ec2_describeInstances env (instance_id (b_detail body)))
    as [[|[[|instance [|instance' instances]]] [|reservation reservations]]] eqn:Hresp;
    try (exfalso; exact (Hshape _ eq_refl));
    destruct (faults env SLogCloudWatchEvent) eqn:Ha;
    run_handler; rewrite Hlive; run_handler; repeat split; read_trace.
Qed.

Lemma malformed_description_rejected_witness :
  let env := mkEnv Example.no_faults (fun _ => mkApiResponse []) in
  let w := Example.empty in
  let '(r, w') := __handler Example.this (Example.notification "pending" 50) env w in
  r = Threw AssertionError
  /\ new_events w w' =
       [ELogCloudWatchEvent "us-west-2" "i-1" "pending" (Valid 50);
        EBeginTransaction; EListInstances "us-west-2" "i-1" 0;
        ECommitTransaction 0; EDescribeInstances ["i-1"]]
  /\ rows w' = rows w.
Proof.
  exact (malformed_description_rejected Example.this
           (mkEnv Example.no_faults (fun _ => mkApiResponse []))
           Example.empty (Example.notification "pending" 50)
           eq_refl eq_refl eq_refl eq_refl eq_refl eq_refl
           (fun instance H => ltac:(discriminate H))).
Defined.

(** X11: an instance described without a key name (launched without a key
    pair) makes the handler throw a type error at the split: nothing is
    tagged or written. *)
Theorem missing_key_name_throws
    (this : Listener) (env : Env) (w : World) (body : Body) (instance : Instance) :
  rows w !! key body = None ->
  live body = true ->
  faults env SBeginTransaction = None ->
  faults env SListInstances = None ->
  faults env SCommitTransaction = None ->
  faults env SDescribeInstances = None ->
  ec2_describeInstances env (instance_id (b_detail body))
    = mkApiResponse [mkReservation [instance]] ->
  KeyName instance = None ->
  let '(r, w') := __handler this body env w in
  r = Threw TypeError
  /\ new_events w w' =
       (audit_events env body ++ lookup_events w body ++
        [ECommitTransaction (next_txn w);
         EDescribeInstances [instance_id (b_detail body)]])%list
  /\ rows w' = rows w.
Proof.
  intros Hrow Hlive Hb Hl Hc Hd Hresp Hkey.
  destruct (faults env SLogCloudWatchEvent) eqn:Ha;
    run_handler; rewrite Hlive; run_handler; repeat split; read_trace.
Qed.

Lemma missing_key_name_throws_witness :
  let keyless := mkInstance None "m3.large" None "us-west-2a" "ami-1" (Valid 7) None in
  let env := mkEnv Example.no_faults (Example.describes keyless) in
  let w := Example.empty in
  let '(r, w') := __handler Example.this (Example.notification "pending" 50) env w in
  r = Threw TypeError
  /\ new_events w w' =
       [ELogCloudWatchEvent "us-west-2" "i-1" "pending" (Valid 50);
        EBeginTransaction; EListInstances "us-west-2" "i-1" 0;
        ECommitTransaction 0; EDescribeInstances ["i-1"]]
  /\ rows w' = rows w.
Proof.
  exact (missing_key_name_throws Example.this
           (mkEnv Example.no_faults
                  (Example.describes
                     (mkInstance None "m3.large" None "us-west-2a" "ami-1" (Valid 7) None)))
           Example.empty (Example.notification "pending" 50)
           (mkInstance None "m3.large" None "us-west-2a" "ami-1" (Valid 7) None)
           eq_refl eq_refl eq_refl eq_refl eq_refl eq_refl eq_refl eq_refl).
Defined.

(** X12: a notification whose time does not parse (an invalid date), or a
    row whose [lastevent] is an invalid date, is never applied: the
    comparison with NaN is false, so the out-of-order path is taken, the
    table is unchanged and the delay measured is NaN. *)
Theorem invalid_date_never_applied
    (this : Listener) (env : Env) (w : World) (body : Body) (d : RowData) :
  rows w !! key body = Some d ->
  b_time body = Invalid \/ lastevent d = FDate Invalid ->
  faults env SBeginTransaction = None ->
  faults env SListInstances = None ->
  faults env SCommitTransaction = None ->
  let '(r, w') := __handler this body env w in
  r = Ok tt
  /\ rows w' = rows w
  /\ new_events w w' =
       (audit_events env body ++ lookup_events w body ++
        [ECommitTransaction (next_txn w);
         EMonitorCount "global.cwe-out-of-order.count" 1;
         EMonitorCount (b_region body +:+ ".cwe-out-of-order.count") 1;
         EMonitorMeasure "global.cwe-out-of-order.delay" NaN;
         EMonitorMeasure (b_region body +:+ ".cwe-out-of-order.delay") NaN;
         ELog LInfo "CloudWatch Event delivered out of order"])%list.
Proof.
  intros Hrow Hinvalid Hb Hl Hc.
  pose proof (out_of_order_path this env w body d Hrow) as Hpath.
  assert (Hold : truthy_field (lastevent d)
                 && match lastevent d with
                    | FDate le => date_lt le (b_time body)
                    | _ => false
                    end = false).
  { destruct Hinvalid as [-> | ->]; [|reflexivity].
    destruct (lastevent d) as [| |[ms|]]; reflexivity. }
  assert (Hnan : sub (to_number_field (lastevent d)) (to_number_date (b_time body)) = NaN).
  { destruct Hinvalid as [-> | ->]; [|reflexivity].
    destruct (lastevent d) as [| |[ms|]]; reflexivity. }
  specialize (Hpath Hold Hb Hl).
  destruct (__handler this body env w) as [r w'].
  cbv zeta in Hpath. rewrite Hnan, Hc in Hpath.
  destruct Hpath as (Hrows & _ & Hr & Hnew & _).
  repeat split; assumption.
Qed.

Lemma invalid_date_never_applied_witness :
  let env := mkEnv Example.no_faults (Example.describes Example.owned) in
  let w := Example.tracked Example.row in
  let '(r, w') := __handler Example.this (mkBody "us-west-2" Invalid (mkDetail "i-1" "terminated"))
                            env w in
  r = Ok tt
  /\ rows w' = rows w
  /\ new_events w w' =
       [ELogCloudWatchEvent "us-west-2" "i-1" "terminated" Invalid;
        EBeginTransaction; EListInstances "us-west-2" "i-1" 0;
        ECommitTransaction 0;
        EMonitorCount "global.cwe-out-of-order.count" 1;
        EMonitorCount "us-west-2.cwe-out-of-order.count" 1;
        EMonitorMeasure "global.cwe-out-of-order.delay" NaN;
        EMonitorMeasure "us-west-2.cwe-out-of-order.delay" NaN;
        ELog LInfo "CloudWatch Event delivered out of order"].
Proof.
  exact (invalid_date_never_applied Example.this
           (mkEnv Example.no_faults (Example.describes Example.owned))
           (Example.tracked Example.row)
           (mkBody "us-west-2" Invalid (mkDetail "i-1" "terminated"))
           Example.row eq_refl (or_introl eq_refl) eq_refl eq_refl eq_refl).
Defined.

(** ** The constructor and the key prefix *)

Lemma is_string_eq (v : Value) (s : string) : is_string v s = true <-> v = VString s.
Proof.
  destruct v; cbn; try (split; [discriminate | intros [=]]).
  rewrite String.eqb_eq. split; [intros ->; reflexivity | intros [= ->]; reflexivity].
Qed.

(** X13: the constructor returns a listener exactly when [state] and
    [tagger] have type [object], [region] and [keyPrefix] are strings,
    [queueName] is a string or absent (then [ec2-events]), the key prefix
    ends with a colon, [sqs] and [ec2] are truthy with [config.region]
    equal to [region], and [monitor.prefix('cloud-watch-events')] returns.
    The listener keeps the prefix without its last character as
    [provisionerId], so [provisionerId + ':'] is the key prefix again. *)
Theorem constructor_iff (a : Args) (this : Listener) :
  (constructor a = Ok this <->
     typeof (a_state a) = "object"
     /\ a_region a = VString (region this)
     /\ (a_queueName a = VString (queueName this)
         \/ (a_queueName a = VUndefined /\ queueName this = "ec2-events"))
     /\ a_keyPrefix a = VString (keyPrefix this)
     /\ last_char (keyPrefix this) = Some ":"%char
     /\ provisionerId this = drop_last (keyPrefix this)
     /\ truthy (a_sqs a) = true
     /\ truthy (a_ec2 a) = true
     /\ config_region (a_ec2 a) = Ok (VString (region this))
     /\ config_region (a_sqs a) = Ok (VString (region this))
     /\ (exists monitor, call_method (a_monitor a) "prefix" "cloud-watch-events" = Ok monitor)
     /\ typeof (a_tagger a) = "object")
  /\ (constructor a = Ok this -> provisionerId this +:+ ":" = keyPrefix this).
Proof.
  assert (Hiff : constructor a = Ok this <->
     typeof (a_state a) = "object"
     /\ a_region a = VString (region this)
     /\ (a_queueName a = VString (queueName this)
         \/ (a_queueName a = VUndefined /\ queueName this = "ec2-events"))
     /\ a_keyPrefix a = VString (keyPrefix this)
     /\ last_char (keyPrefix this) = Some ":"%char
     /\ provisionerId this = drop_last (keyPrefix this)
     /\ truthy (a_sqs a) = true
     /\ truthy (a_ec2 a) = true
     /\ config_region (a_ec2 a) = Ok (VString (region this))
     /\ config_region (a_sqs a) = Ok (VString (region this))
     /\ (exists monitor, call_method (a_monitor a) "prefix" "cloud-watch-events" = Ok monitor)
     /\ typeof (a_tagger a) = "object").
  { unfold constructor, and_then, check. split.
    - intros H.
      destruct (String.eqb (typeof (a_state a)) "object") eqn:Hstate; [|discriminate H].
      destruct (a_region a) as [| | | |region| |] eqn:Hregion; try discriminate H.
      cbn in H.
      destruct (a_queueName a) as [| | | |queueName| |] eqn:Hqueue; try discriminate H;
        cbn in H;
        (destruct (a_keyPrefix a) as [| | | |keyPrefix| |] eqn:Hprefix; try discriminate H;
         cbn in H;
         destruct (bool_decide (last_char keyPrefix = Some ":"%char)) eqn:Hlast;
           [|discriminate H];
         destruct (truthy (a_sqs a)) eqn:Hsqs; [|discriminate H];
         destruct (truthy (a_ec2 a)) eqn:Hec2; [|discriminate H];
         destruct (config_region (a_ec2 a)) as [ec2_region|] eqn:Hec2r; [|discriminate H];
         destruct (is_string ec2_region region) eqn:Hec2s; [|discriminate H];
         destruct (config_region (a_sqs a)) as [sqs_region|] eqn:Hsqsr; [|discriminate H];
         destruct (is_string sqs_region region) eqn:Hsqss; [|discriminate H];
         destruct (call_method (a_monitor a) "prefix" "cloud-watch-events")
           as [monitor|] eqn:Hmonitor; [|discriminate H];
         destruct (String.eqb (typeof (a_tagger a)) "object") eqn:Htagger; [|discriminate H];
         injection H as <-; cbn;
         apply String.eqb_eq in Hstate, Htagger;
         apply bool_decide_eq_true in Hlast;
         apply is_string_eq in Hec2s, Hsqss; subst;
         repeat split; eauto).
    - intros (Hstate & Hregion & Hqueue & Hprefix & Hlast & Hprov & Hsqs & Hec2
              & Hec2r & Hsqsr & (monitor & Hmonitor) & Htagger).
      destruct this as [region queueName provisionerId keyPrefix]. cbn in *.
      rewrite Hstate, Hregion, Hprefix, Hsqs, Hec2, Hec2r, Hsqsr, Hmonitor, Htagger.
      subst provisionerId.
      assert (Hl : bool_decide (last_char keyPrefix = Some ":"%char) = true)
        by (apply bool_decide_eq_true; exact Hlast).
      destruct Hqueue as [-> | [-> ->]]; cbn; rewrite Hl; cbn;
        rewrite String.eqb_refl; reflexivity. }
  split; [exact Hiff|].
  intros H. apply Hiff in H.
  destruct H as (_ & _ & _ & _ & Hlast & -> & _).
  apply drop_last_colon. exact Hlast.
Qed.

Lemma append_cons (c : ascii) (a b : string) : String c a +:+ b = String c (a +:+ b).
Proof. reflexivity. Qed.

Lemma append_empty (b : string) : "" +:+ b = b.
Proof. reflexivity. Qed.

Lemma split_at_first_found (sep : ascii) (k p r : string) :
  split_at_first sep k = (p, Some r) -> k = p +:+ String sep r.
Proof.
  revert p. induction k as [|c k IH]; intros p; cbn; [discriminate|].
  destruct (Ascii.eqb c sep) eqn:Hc.
  - apply Ascii.eqb_eq in Hc. intros [= <- <-]. subst c. reflexivity.
  - destruct (split_at_first sep k) as [before after].
    intros [= <- ->]. rewrite append_cons. f_equal. apply IH. reflexivity.
Qed.

Lemma split_at_first_app (sep : ascii) (p r : string) :
  contains sep p = false -> split_at_first sep (p +:+ String sep r) = (p, Some r).
Proof.
  induction p as [|c p IH]; cbn [contains].
  - intros _. rewrite append_empty. cbn. rewrite Ascii.eqb_refl. reflexivity.
  - rewrite append_cons. cbn [split_at_first].
    destruct (Ascii.eqb c sep); cbn [orb]; [discriminate|].
    intros Hp. rewrite (IH Hp). reflexivity.
Qed.

Lemma split_at_first_clean (sep : ascii) (k : string) :
  contains sep (split_at_first sep k).1 = false.
Proof.
  induction k as [|c k IH]; cbn; [reflexivity|].
  destruct (Ascii.eqb c sep) eqn:Hc; [reflexivity|].
  destruct (split_at_first sep k) as [before after]. cbn in *. rewrite Hc. exact IH.
Qed.

(** X14: for a listener whose [provisionerId] holds no colon, the handler's
    ownership test ([workerType] truthy and the first piece equal to
    [provisionerId]) accepts exactly the key names that start with
    [provisionerId + ':'] followed by a non-empty worker type. *)
Theorem owned_iff_prefixed (this : Listener) (keyName : string) :
  contains ":" (provisionerId this) = false ->
  (truthy_string (split_key_name keyName).2
   && bool_decide ((split_key_name keyName).1 = Some (provisionerId this)) = true)
  <-> exists rest,
        keyName = provisionerId this +:+ ":" +:+ rest
        /\ (split_at_first ":" rest).1 <> "".
Proof.
  intros Hclean. unfold split_key_name. cbv zeta. cbn [fst snd].
  rewrite split_first_piece, split_second_piece, andb_true_iff, bool_decide_eq_true.
  split.
  - intros [Hwt [= Hpid]].
    destruct (split_at_first ":" keyName) as [p [r|]] eqn:Hsplit; cbn in *; [|discriminate].
    subst p. exists r. split; [apply (split_at_first_found _ _ _ _ Hsplit)|].
    destruct (split_at_first ":" r).1; [discriminate | discriminate].
  - intros (rest & -> & Hwt).
    change (provisionerId this +:+ ":" +:+ rest)
      with (provisionerId this +:+ String ":" rest).
    rewrite (split_at_first_app _ _ _ Hclean). cbn.
    split; [|reflexivity].
    destruct (split_at_first ":" rest).1; [congruence | reflexivity].
Qed.

Lemma owned_iff_prefixed_witness :
  truthy_string (split_key_name "prov:worker:hash").2
  && bool_decide ((split_key_name "prov:worker:hash").1 = Some (provisionerId Example.this))
  = true.
Proof.
  apply (owned_iff_prefixed Example.this "prov:worker:hash" eq_refl).
  exists "worker:hash". split; [reflexivity | discriminate].
Defined.

(** X15: a listener whose key prefix has a colon before its last one owns
    nothing: the first piece of a key name never holds a colon, so it is
    never equal to such a [provisionerId]. *)
Theorem inner_colon_owns_nothing (this : Listener) (keyName : string) :
  contains ":" (provisionerId this) = true ->
  bool_decide ((split_key_name keyName).1 = Some (provisionerId this)) = false.
Proof.
  intros Hcolon. apply bool_decide_eq_false.
  unfold split_key_name. cbv zeta. cbn [fst]. rewrite split_first_piece.
  intros [= Hpid].
  pose proof (split_at_first_clean ":" keyName) as Hclean.
  rewrite Hpid, Hcolon in Hclean. discriminate.
Qed.

Lemma inner_colon_owns_nothing_witness :
  bool_decide ((split_key_name "aws:prov:worker:hash").1
               = Some (provisionerId (mkListener "us-west-2" "ec2-events" "aws:prov" "aws:prov:")))
  = false.
Proof.
  exact (inner_colon_owns_nothing
           (mkListener "us-west-2" "ec2-events" "aws:prov" "aws:prov:")
           "aws:prov:worker:hash" eq_refl).
Defined.

(** ** The queue wiring *)

(** X17: the handler given to the queue listener returns or throws as the
    message handler does, with the same effect on the table; the handling
    time is measured and [handled-messages] is counted exactly when the
    message handler returns, and not when it throws. *)
Theorem handled_counted_on_return
    (this : Listener) (elapsed : Number) (body : Body) (env : Env) (w : World) :
  let '(r, w1) := __handler this body env w in
  let '(r', w2) := Wiring.handler this elapsed body env w in
  r' = r
  /\ rows w2 = rows w1
  /\ open_txns w2 = open_txns w1
  /\ trace w2 =
       (trace w1 ++
        match r with
        | Ok _ => [EMonitorMeasure "message-handler-time" elapsed;
                   EMonitorCount "handled-messages" 1]
        | Threw _ => []
        end)%list.
Proof.
  unfold Wiring.handler. cbn [bind].
  destruct (__handler this body env w) as [[[]|err] w1]; cbn.
  - rewrite <- app_assoc. repeat split.
  - rewrite app_nil_r. repeat split.
Qed.

(** ** Deliveries one after the other *)

(** X19: when no call fails, handling a notification a second time leaves
    the table exactly as the first handling left it, whatever the table,
    the notification and the answer of the EC2 API. *)
Theorem redelivery_idempotent (this : Listener) (env : Env) (w : World) (body : Body) :
  (forall s, faults env s = None) ->
  rows (handle_all this env [body; body] w) = rows (handle_all this env [body] w).
Proof.
  intros Hnf. no_faults Hnf. clear Hnf. cbn [handle_all].
  set (again := __handler this body env) at 1.
  destruct (rows w !! key body) as [d|] eqn:Hrow.
  - run_first this body env w; subst again; run_next_paths;
      first [reflexivity | apply delete_id, lookup_delete_eq].
  - run_first this body env w; subst again; run_next_paths;
      first [reflexivity | apply delete_id, lookup_delete_eq].
Qed.

Lemma redelivery_idempotent_witness :
  let env := mkEnv Example.no_faults (Example.describes Example.owned) in
  let body := Example.notification "pending" 50 in
  rows (handle_all Example.this env [body; body] Example.empty)
  = rows (handle_all Example.this env [body] Example.empty).
Proof.
  exact (redelivery_idempotent Example.this
           (mkEnv Example.no_faults (Example.describes Example.owned))
           Example.empty (Example.notification "pending" 50) (fun s => eq_refl)).
Defined.

(** X20: two notifications with a [pending] or [running] state, both newer
    than the row, leave the same row whichever is delivered first: the row
    has the state and the time of the newer one, because the older one is
    either overwritten or dropped. *)
Theorem live_updates_commute
    (this : Listener) (env : Env) (w : World) (region id st1 st2 : string)
    (d : RowData) (L G1 G2 : Z) :
  rows w !! (region, id) = Some d ->
  lastevent d = FDate (Valid L) ->
  L < G1 -> G1 < G2 ->
  live (notify region id st1 (Valid G1)) = true ->
  live (notify region id st2 (Valid G2)) = true ->
  (forall s, faults env s = None) ->
  let older := notify region id st1 (Valid G1) in
  let newer := notify region id st2 (Valid G2) in
  rows (handle_all this env [older; newer] w)
    = <[(region, id) := updated d st2 (Valid G2)]> (rows w)
  /\ rows (handle_all this env [newer; older] w)
    = <[(region, id) := updated d st2 (Valid G2)]> (rows w).
Proof.
  intros Hrow HL H1 H2 Hlive1 Hlive2 Hnf older newer.
  no_faults Hnf. clear Hnf.
  assert (HL1 : (L <? G1) = true) by (apply Z.ltb_lt; lia).
  assert (HL2 : (L <? G2) = true) by (apply Z.ltb_lt; lia).
  assert (H12 : (G1 <? G2) = true) by (apply Z.ltb_lt; lia).
  assert (H21 : (G2 <? G1) = false) by (apply Z.ltb_ge; lia).
  unfold live, notify in Hlive1, Hlive2. cbn in Hlive1, Hlive2.
  subst older newer. unfold notify. cbn [handle_all]. split.
  - set (again := __handler this (mkBody region (Valid G2) (mkDetail id st2)) env).
    run_first this (mkBody region (Valid G1) (mkDetail id st1)) env w.
    subst again. run_next.
    rewrite (alter_found _ _ _ d Hrow).
    erewrite alter_found by apply lookup_insert_eq.
    rewrite insert_insert_eq. reflexivity.
  - set (again := __handler this (mkBody region (Valid G1) (mkDetail id st1)) env).
    run_first this (mkBody region (Valid G2) (mkDetail id st2)) env w.
    subst again. run_next.
    rewrite (alter_found _ _ _ d Hrow). reflexivity.
Qed.

Lemma live_updates_commute_witness :
  let env := mkEnv Example.no_faults (Example.describes Example.owned) in
  let w := Example.tracked Example.row in
  let older := notify "us-west-2" "i-1" "pending" (Valid 200) in
  let newer := notify "us-west-2" "i-1" "running" (Valid 300) in
  rows (handle_all Example.this env [older; newer] w)
    = <[("us-west-2", "i-1") := updated Example.row "running" (Valid 300)]> (rows w)
  /\ rows (handle_all Example.this env [newer; older] w)
    = <[("us-west-2", "i-1") := updated Example.row "running" (Valid 300)]> (rows w).
Proof.
  exact (live_updates_commute Example.this
           (mkEnv Example.no_faults (Example.describes Example.owned))
           (Example.tracked Example.row) "us-west-2" "i-1" "pending" "running"
           Example.row 100 200 300 eq_refl eq_refl ltac:(lia) ltac:(lia)
           eq_refl eq_refl (fun s => eq_refl)).
Defined.

(** X21: a [pending] or [running] notification handled after the newer
    terminal one for the same instance finds no row; when the EC2 API still
    describes the instance as one of this provisioner, the row is inserted
    again, with the older time.  Handled in the order of their times, the
    same two notifications leave no row. *)
Theorem stale_live_after_terminal_reinserts
    (this : Listener) (env : Env) (w : World) (region id st_live st_end : string)
    (d : RowData) (L G1 G2 : Z) (instance : Instance) (keyName : string)
    (c : ascii) (workerType : string) :
  rows w !! (region, id) = Some d ->
  lastevent d = FDate (Valid L) ->
  L < G1 -> G1 < G2 ->
  live (notify region id st_live (Valid G1)) = true ->
  live (notify region id st_end (Valid G2)) = false ->
  (forall s, faults env s = None) ->
  ec2_describeInstances env id = mkApiResponse [mkReservation [instance]] ->
  KeyName instance = Some keyName ->
  split_key_name keyName = (Some (provisionerId this), Some (String c workerType)) ->
  let older := notify region id st_live (Valid G1) in
  let newer := notify region id st_end (Valid G2) in
  rows (handle_all this env [newer; older] w) !! (region, id)
    = Some (mkRowData (String c workerType) (AvailabilityZone instance)
                      (InstanceType instance) (ImageId instance)
                      (if truthy_string (SpotInstanceRequestId instance)
                       then SpotInstanceRequestId instance else None)
                      (LaunchTime instance) st_live (FDate (Valid G1)))
  /\ rows (handle_all this env [older; newer] w) !! (region, id) = None.
Proof.
  intros Hrow HL H1 H2 Hlive Hend Hnf Hresp Hkey Hsplit older newer.
  no_faults Hnf. clear Hnf.
  assert (HL1 : (L <? G1) = true) by (apply Z.ltb_lt; lia).
  assert (HL2 : (L <? G2) = true) by (apply Z.ltb_lt; lia).
  assert (H12 : (G1 <? G2) = true) by (apply Z.ltb_lt; lia).
  assert (Hown : bool_decide (Some (provisionerId this) = Some (provisionerId this)) = true)
    by (apply bool_decide_eq_true; reflexivity).
  unfold live, notify in Hlive, Hend. cbn in Hlive, Hend.
  subst older newer. unfold notify. cbn [handle_all]. split.
  - set (again := __handler this (mkBody region (Valid G1) (mkDetail id st_live)) env).
    run_first this (mkBody region (Valid G2) (mkDetail id st_end)) env w.
    subst again. run_next_paths; reflexivity.
  - set (again := __handler this (mkBody region (Valid G2) (mkDetail id st_end)) env).
    run_first this (mkBody region (Valid G1) (mkDetail id st_live)) env w.
    subst again. run_next. first [reflexivity | apply lookup_delete_eq].
Qed.

Lemma stale_live_after_terminal_reinserts_witness :
  let env := mkEnv Example.no_faults (Example.describes Example.owned) in
  let w := Example.tracked Example.row in
  let older := notify "us-west-2" "i-1" "running" (Valid 200) in
  let newer := notify "us-west-2" "i-1" "terminated" (Valid 300) in
  rows (handle_all Example.this env [newer; older] w) !! ("us-west-2", "i-1")
    = Some (mkRowData "worker" "us-west-2a" "m3.large" "ami-1" (Some "sir-1") (Valid 7)
                      "running" (FDate (Valid 200)))
  /\ rows (handle_all Example.this env [older; newer] w) !! ("us-west-2", "i-1") = None.
Proof.
  exact (stale_live_after_terminal_reinserts Example.this
           (mkEnv Example.no_faults (Example.describes Example.owned))
           (Example.tracked Example.row) "us-west-2" "i-1" "running" "terminated"
           Example.row 100 200 300 Example.owned "prov:worker:hash" "w"%char "orker"
           eq_refl eq_refl ltac:(lia) ltac:(lia) eq_refl eq_refl (fun s => eq_refl)
           eq_refl eq_refl eq_refl).
Defined.

(** X22: when [upsertInstance] throws for an instance of this provisioner,
    the handler throws the same error and the table is unchanged; the
    tagging call, when it was due, has already been made. *)
Theorem upsert_failure_rethrown
    (this : Listener) (env : Env) (w : World) (body : Body)
    (instance : Instance) (keyName : string) (c : ascii) (workerType : string)
    (err : Error) :
  rows w !! key body = None ->
  live body = true ->
  faults env SBeginTransaction = None ->
  faults env SListInstances = None ->
  faults env SCommitTransaction = None ->
  faults env SDescribeInstances = None ->
  faults env STagResources = None ->
  faults env SUpsertInstance = Some err ->
  ec2_describeInstances env (instance_id (b_detail body))
    = mkApiResponse [mkReservation [instance]] ->
  KeyName instance = Some keyName ->
  split_key_name keyName = (Some (provisionerId this), Some (String c workerType)) ->
  let '(r, w') := __handler this body env w in
  r = Threw err
  /\ rows w' = rows w
  /\ List.filter is_tagging (new_events w w')
     = (if missingTags instance
        then [ETagResources [instance_id (b_detail body)] (String c workerType)
                            (b_region body)]
        else [])
  /\ exists opts, List.filter is_upsert (new_events w w') = [EUpsertInstance opts].
Proof.
  intros Hrow Hlive Hb Hl Hc Hd Ht Hu Hresp Hkey Hsplit.
  assert (Hown : bool_decide (Some (provisionerId this) = Some (provisionerId this)) = true)
    by (apply bool_decide_eq_true; reflexivity).
  run_handler. rewrite Hlive. run_all_paths.
  all: list_new_events; repeat split; eexists; reflexivity.
Qed.

Lemma upsert_failure_rethrown_witness :
  let env := mkEnv (Example.fault_at SUpsertInstance Example.connection_lost)
                   (Example.describes Example.owned) in
  let w := Example.empty in
  let '(r, w') := __handler Example.this (Example.notification "pending" 50) env w in
  r = Threw Example.connection_lost
  /\ rows w' = rows w
  /\ List.filter is_tagging (new_events w w') = [ETagResources ["i-1"] "worker" "us-west-2"].
Proof.
  intros env w.
  pose proof (upsert_failure_rethrown Example.this env w (Example.notification "pending" 50)
                Example.owned "prov:worker:hash" "w"%char "orker" Example.connection_lost
                eq_refl eq_refl eq_refl eq_refl eq_refl eq_refl eq_refl eq_refl
                eq_refl eq_refl eq_refl) as H.
  destruct (__handler Example.this (Example.notification "pending" 50) env w) as [r w'].
  destruct H as (Hr & Hrows & Htag & _). repeat split; assumption.
Defined.
